(** * retrieve_climate_data_from_prism.py: a shallow embedding

    The script asks for two dates, loads coordinate records from the CSV
    file(s) of the '.coordinates' directory, posts one request per
    coordinate to the ACIS GridData service and appends the daily rows it
    gets back to a CSV file under '.results'.

    Modelling conventions.
    - A Python [str] is a sequence of Unicode code points ([pystr]).
    - Everything outside the process is gathered in a [world]: what the
      operator types, what has been printed, the two directories, the remote
      service, and the buffer of the output file while it is open.  Python
      code becomes a function [world -> outcome A * world]; an uncaught
      exception is the outcome [Raise e].
    - A CSV file is kept as the list of rows handed to [csv.writer] /
      produced by [csv.DictReader].  The text of a row matters for whether
      it can be encoded and for the room it takes in the buffer of the
      output file; the buffer holds whole rows and hands on whole rows.
    - The output file is the script's own: what a run finds in it was
      written by runs before it, one terminated line per row.  Files put at
      its path by other means, and runs that overlap in time, are outside
      the model.
    - On the output side, [open(.., 'a')] raises when '.results' is missing
      and [writerow] raises when a row cannot be encoded as UTF-8.  A full
      disk and missing permissions on '.results' are not modelled. *)

From Stdlib Require Import List NArith ZArith Bool Ascii String Lia.
From Stdlib Require Import DecimalString.
Import ListNotations.
Local Open Scope N_scope.
Set Warnings "-register-all".

(** ** Python strings *)

Definition pystr := list N.

Definition lit (s : string) : pystr :=
  map N_of_ascii (list_ascii_of_string s).

Fixpoint pystr_eqb (a b : pystr) : bool :=
  match a, b with
  | [], [] => true
  | x :: a', y :: b' => N.eqb x y && pystr_eqb a' b'
  | _, _ => false
  end.

(** [str(n)] for a Python int. *)
Definition str_of_int (z : Z) : pystr :=
  lit (NilEmpty.string_of_int (Z.to_int z)).

(** [s.endswith(suffix)]. *)
Definition endswith (s suffix : pystr) : bool :=
  Nat.leb (List.length suffix) (List.length s)
  && pystr_eqb (skipn (List.length s - List.length suffix) s) suffix.

(** [s.startswith(prefix)] and [needle in haystack] for strings. *)
Fixpoint startswith (s prefix : pystr) {struct prefix} : bool :=
  match prefix, s with
  | [], _ => true
  | p :: prefix', c :: s' => N.eqb c p && startswith s' prefix'
  | _ :: _, [] => false
  end.

Fixpoint contains (haystack needle : pystr) : bool :=
  startswith haystack needle
  || match haystack with
     | [] => false
     | _ :: rest => contains rest needle
     end.

(** ** Regular expressions: the fragment used by the date pattern

    [re] works on code points and, for a [str] pattern, [\d] is any Unicode
    decimal digit (general category Nd).  The decimal digits come in runs of
    ten consecutive code points; [decimal_runs] lists the first code point
    of each run (Unicode 14.0, the database of CPython 3.11).  Below U+0100
    the only run is '0'..'9'. *)

Definition decimal_runs : list N :=
  [ 0x30; 0x660; 0x6f0; 0x7c0; 0x966; 0x9e6; 0xa66; 0xae6; 0xb66; 0xbe6;
    0xc66; 0xce6; 0xd66; 0xde6; 0xe50; 0xed0; 0xf20; 0x1040; 0x1090;
    0x17e0; 0x1810; 0x1946; 0x19d0; 0x1a80; 0x1a90; 0x1b50; 0x1bb0;
    0x1c40; 0x1c50; 0xa620; 0xa8d0; 0xa900; 0xa9d0; 0xa9f0; 0xaa50;
    0xabf0; 0xff10; 0x104a0; 0x10d30; 0x11066; 0x110f0; 0x11136; 0x111d0;
    0x112f0; 0x11450; 0x114d0; 0x11650; 0x116c0; 0x11730; 0x118e0;
    0x11950; 0x11c50; 0x11d50; 0x11da0; 0x16a60; 0x16ac0; 0x16b50;
    0x1d7ce; 0x1d7d8; 0x1d7e2; 0x1d7ec; 0x1d7f6; 0x1e140; 0x1e2f0;
    0x1e950; 0x1fbf0 ].

Definition is_decimal (c : N) : bool :=
  existsb (fun first => (first <=? c) && (c <? first + 10)) decimal_runs.

Inductive regex : Type :=
| Digit                          (* \d     *)
| Char (c : N)                   (* a literal character *)
| Times (n : nat) (r : regex)    (* r{n}   *)
| Seq (r1 r2 : regex).           (* r1 r2  *)

(** [consume r s] matches [r] at the start of [s] and gives back what is
    left of [s].  The fragment has no alternation and no open repetition, so
    a match, when there is one, is unique. *)
Fixpoint consume (r : regex) (s : pystr) : option pystr :=
  match r with
  | Digit =>
      match s with
      | c :: s' => if is_decimal c then Some s' else None
      | [] => None
      end
  | Char a =>
      match s with
      | c :: s' => if N.eqb c a then Some s' else None
      | [] => None
      end
  | Times n r' =>
      Nat.iter n
        (fun k s0 => match consume r' s0 with
                     | Some s1 => k s1
                     | None => None
                     end)
        Some s
  | Seq r1 r2 =>
      match consume r1 s with
      | Some s1 => consume r2 s1
      | None => None
      end
  end.

(** [re.fullmatch(r, s) is not None]. *)
Definition fullmatch (r : regex) (s : pystr) : bool :=
  match consume r s with
  | Some [] => true
  | _ => false
  end.

Definition dash : N := 45.

(** r'\d{4}-\d{2}-\d{2}' *)
Definition date_pattern : regex :=
  Seq (Times 4 Digit)
    (Seq (Char dash) (Seq (Times 2 Digit) (Seq (Char dash) (Times 2 Digit)))).

(** The shape the pattern stands for: four decimal digits, a dash, two
    decimal digits, a dash, two decimal digits and nothing else, a decimal
    digit being any code point of [decimal_runs]. *)
Definition date_shape (s : pystr) : Prop :=
  exists y1 y2 y3 y4 m1 m2 d1 d2,
    s = [y1; y2; y3; y4; dash; m1; m2; dash; d1; d2]
    /\ Forall (fun c => is_decimal c = true) [y1; y2; y3; y4; m1; m2; d1; d2].

(** The lexical shape YYYY-MM-DD in the words of the specification: four
    digits, a dash, two digits, a dash, two digits, and nothing else, the
    digits being 0 to 9. *)
Definition is_digit_0_9 (c : N) : Prop := 48 <= c <= 57.

Definition ascii_date_shape (s : pystr) : Prop :=
  exists y1 y2 y3 y4 m1 m2 d1 d2,
    s = [y1; y2; y3; y4; dash; m1; m2; dash; d1; d2]
    /\ Forall is_digit_0_9 [y1; y2; y3; y4; m1; m2; d1; d2].

(** ** Exceptions, values, the remote service *)

Inductive exn : Type :=
| EOFError                  (* input() at the end of stdin *)
| FileNotFoundError
| PermissionError
| UnboundLocalError         (* a local variable read before any assignment *)
| KeyError (key : pystr)
| TypeError
| JSONDecodeError           (* response.json() on a body that is not JSON *)
| UnicodeEncodeError        (* text that cannot be encoded as UTF-8 *)
| Timeout                   (* requests.exceptions.Timeout *)
| ConnectionError           (* requests.exceptions.ConnectionError *)
| OtherError (name : pystr).

Inductive outcome (A : Type) : Type :=
| Return (a : A)
| Raise (e : exn).
Arguments Return {A} a.
Arguments Raise {A} e.

(** What [json.loads] can produce.  A float is carried by its [repr], the
    text [csv.writer] emits for it; the script never computes with it. *)
Inductive pyval : Type :=
| PNone
| PBool (b : bool)
| PInt (z : Z)
| PFloat (shown : pystr)
| PStr (s : pystr)
| PList (items : list pyval)
| PDict (items : list (pystr * pyval)).

(** A row handed to [writer.writerow]. *)
Definition row := list pyval.

(** A row of [csv.DictReader]: header name to field; a field missing from
    a short line is [None].  The fields of a long line beyond the header,
    which [DictReader] keeps under the key [None], are left out: the script
    never reads them. *)
Definition entry := list (pystr * option pystr).

Fixpoint lookup {A : Type} (key : pystr) (d : list (pystr * A)) : option A :=
  match d with
  | [] => None
  | (k, v) :: d' => if pystr_eqb k key then Some v else lookup key d'
  end.

(** [d[key]] on a dict with string keys. *)
Definition getitem {A : Type} (d : list (pystr * A)) (key : pystr) : outcome A :=
  match lookup key d with
  | Some v => Return v
  | None => Raise (KeyError key)
  end.

(** [str(x)] (and [{x}] in an f-string) for a field of a [DictReader] row. *)
Definition str_of_field (x : option pystr) : pystr :=
  match x with
  | Some s => s
  | None => lit "None"
  end.

(** [v[key]] for a value that came out of [response.json()]. *)
Definition py_getitem (v : pyval) (key : pystr) : outcome pyval :=
  match v with
  | PDict items => getitem items key
  | _ => Raise TypeError
  end.

(** The items [for x in v] runs through. *)
Definition py_iter (v : pyval) : outcome (list pyval) :=
  match v with
  | PList items => Return items
  | PStr s => Return (map (fun c => PStr [c]) s)
  | PDict items => Return (map (fun kv => PStr (fst kv)) items)
  | _ => Raise TypeError
  end.

(** [prefix + v] for a list [prefix]. *)
Definition py_list_add (prefix : list pyval) (v : pyval) : outcome (list pyval) :=
  match v with
  | PList items => Return (prefix ++ items)
  | _ => Raise TypeError
  end.

(** The parameters posted to http://data.rcc-acis.org/GridData. *)
Record request : Type := {
  loc : pystr;
  sdate : pystr;
  edate : pystr;
  grid : Z;
  elems : pystr
}.

(** What the script reads of a [requests.Response]: [json] is the result
    of calling [response.json()]. *)
Record response : Type := {
  status_code : Z;
  text : pystr;
  json : outcome pyval
}.

(** [requests.post(url, params, timeout=60)] returns a response or raises
    (a timeout, a refused connection, ...). *)
Inductive post_result : Type :=
| Responded (r : response)
| Failed (e : exn).

(** ** The world *)

(** '.coordinates': [os.listdir] raises, or lists names; each name comes
    with what opening the file and reading it through [csv.DictReader]
    yields. *)
Inductive file_read : Type :=
| Parsed (rows : list entry)
| Unreadable (e : exn).

Inductive dir_state : Type :=
| Unlistable (e : exn)
| Listing (files : list (pystr * file_read)).

(** '.results' and, in it, the file at the path the run derives from its
    timestamp. *)
Inductive results_state : Type :=
| NoResultsDir
| ResultsDir (artifact : option (list row)).

Record world : Type := {
  stdin : list pystr;             (* lines the operator will type *)
  stdout : list pystr;            (* what was written to stdout, oldest first *)
  coordinates_dir : dir_state;
  results : results_state;
  remote : nat -> request -> post_result;   (* answer to the n-th post *)
  posted : list request;          (* requests sent so far *)
  autoflush : list row -> bool;   (* does the file buffer drain by itself
                                     when it is to hold these rows? *)
  pending : list row              (* rows written but still in the buffer *)
}.

Definition set_stdin (x : list pystr) (w : world) : world :=
  {| stdin := x; stdout := stdout w; coordinates_dir := coordinates_dir w;
     results := results w; remote := remote w; posted := posted w;
     autoflush := autoflush w; pending := pending w |}.

Definition set_stdout (x : list pystr) (w : world) : world :=
  {| stdin := stdin w; stdout := x; coordinates_dir := coordinates_dir w;
     results := results w; remote := remote w; posted := posted w;
     autoflush := autoflush w; pending := pending w |}.

Definition set_results (x : results_state) (w : world) : world :=
  {| stdin := stdin w; stdout := stdout w; coordinates_dir := coordinates_dir w;
     results := x; remote := remote w; posted := posted w;
     autoflush := autoflush w; pending := pending w |}.

Definition set_posted (x : list request) (w : world) : world :=
  {| stdin := stdin w; stdout := stdout w; coordinates_dir := coordinates_dir w;
     results := results w; remote := remote w; posted := x;
     autoflush := autoflush w; pending := pending w |}.

Definition set_pending (x : list row) (w : world) : world :=
  {| stdin := stdin w; stdout := stdout w; coordinates_dir := coordinates_dir w;
     results := results w; remote := remote w; posted := posted w;
     autoflush := autoflush w; pending := x |}.

(** The rows of the output file that are on disk. *)
Definition artifact_rows (w : world) : list row :=
  match results w with
  | ResultsDir (Some rows) => rows
  | _ => []
  end.

(** The rows of the output file as the script sees it: what is on disk
    followed by what is still buffered. *)
Definition contents (w : world) : list row :=
  artifact_rows w ++ pending w.

(** ** Computations *)

Definition M (A : Type) : Type := world -> outcome A * world.

Definition ret {A : Type} (a : A) : M A := fun w => (Return a, w).

Definition raise {A : Type} (e : exn) : M A := fun w => (Raise e, w).

Definition bind {A B : Type} (m : M A) (k : A -> M B) : M B :=
  fun w =>
    match m w with
    | (Return a, w') => k a w'
    | (Raise e, w') => (Raise e, w')
    end.

Definition lift {A : Type} (r : outcome A) : M A := fun w => (r, w).

Declare Scope py_scope.
Delimit Scope py_scope with py.
Notation "x <- m ;; k" := (bind m (fun x => k))
  (at level 61, m at next level, right associativity) : py_scope.
Notation "m ;; k" := (bind m (fun _ => k))
  (at level 61, right associativity) : py_scope.
Local Open Scope py_scope.

Fixpoint for_each {A : Type} (xs : list A) (body : A -> M unit) : M unit :=
  match xs with
  | [] => ret tt
  | x :: xs' => body x ;; for_each xs' body
  end.

(** [print(s)]. *)
Definition print (s : pystr) : M unit :=
  fun w => (Return tt, set_stdout (stdout w ++ [s]) w).

(** ** The script *)

(** The [while True] loop of lines 57-62.  Each turn reads one line, so the
    loop is a recursion on the lines still to be typed; [input] writes its
    prompt and raises [EOFError] when nothing is left. *)
Fixpoint ask_date (prompt : pystr) (typed : list pystr) (w : world)
  : outcome pystr * world :=
  match typed with
  | [] => (Raise EOFError, set_stdin [] (set_stdout (stdout w ++ [prompt]) w))
  | user_input :: rest =>
      let w1 := set_stdin rest (set_stdout (stdout w ++ [prompt]) w) in
      if fullmatch date_pattern user_input then (Return user_input, w1)
      else
        ask_date prompt rest
          (set_stdout
             (stdout w1
              ++ [lit "Incorrect format. Please make sure to follow the YYYY-MM-DD pattern."])
             w1)
  end.

Definition get_start_date_input : M pystr :=
  fun w => ask_date (lit "Start date (YYYY-MM-DD): ") (stdin w) w.

Definition get_end_date_input : M pystr :=
  fun w => ask_date (lit "End date (YYYY-MM-DD): ") (stdin w) w.

(** Lines 79-86: the loop over [os.listdir].  [bound] is the local variable
    [csv_data_as_dict]: [None] while it has not been assigned.  The result
    is the exception that left the loop, if any, and the variable as it
    stands then. *)
Fixpoint read_csv_files (files : list (pystr * file_read))
    (bound : option (list entry)) : option exn * option (list entry) :=
  match files with
  | [] => (None, bound)
  | (filename, content) :: rest =>
      if endswith filename (lit ".csv") then
        match content with
        | Parsed rows => read_csv_files rest (Some rows)
        | Unreadable e => (Some e, bound)
        end
      else read_csv_files rest bound
  end.

(** Line 91, [return csv_data_as_dict]. *)
Definition return_local {A : Type} (bound : option A) : M A :=
  match bound with
  | Some v => ret v
  | None => raise UnboundLocalError
  end.

Definition import_coordinates : M (list entry) :=
  fun w =>
    let '(raised, bound) :=
      match coordinates_dir w with
      | Unlistable e => (Some e, None)
      | Listing files => read_csv_files files None
      end in
    match raised with
    | None => return_local bound w
    | Some FileNotFoundError =>
        (print (lit "Directory .coordinates not found.") ;; return_local bound) w
    | Some PermissionError =>
        (print (lit "No permission to read directory .coordinates.") ;;
         return_local bound) w
    | Some e => (Raise e, w)
    end.

Definition headers : row :=
  [PStr (lit "id"); PStr (lit "date"); PStr (lit "maxt_F"); PStr (lit "mint_F");
   PStr (lit "pcpn_inches")].

(** [os.path.exists(dir_path)] and [os.makedirs(dir_path)]. *)
Definition results_dir_exists : M bool :=
  fun w => (Return (match results w with NoResultsDir => false | _ => true end), w).

Definition makedirs : M unit :=
  fun w => (Return tt, set_results (ResultsDir None) w).

(** Line 118: [not os.path.exists(file_path) or os.stat(file_path).st_size == 0]. *)
Definition artifact_is_empty : M bool :=
  fun w =>
    (Return (match results w with
             | ResultsDir (Some (_ :: _)) => false
             | _ => true
             end), w).

(** The world once the file is open: what is on disk stays; a missing file
    has been created empty; the buffer starts empty. *)
Definition opened (w : world) : world :=
  set_pending [] (set_results (ResultsDir (Some (artifact_rows w))) w).

(** [open(file_path, 'a', ...)]: [FileNotFoundError] when '.results' is
    missing. *)
Definition open_append : M unit :=
  fun w =>
    match results w with
    | NoResultsDir => (Raise FileNotFoundError, w)
    | ResultsDir _ => (Return tt, opened w)
    end.

(** The buffer goes to disk. *)
Definition drain (w : world) : world :=
  set_pending [] (set_results (ResultsDir (Some (contents w))) w).

(** [with open(...) as file: body]: the file is closed, and so its buffer
    drained, when the body returns and when an exception leaves it. *)
Definition with_open_append {A : Type} (body : M A) : M A :=
  fun w =>
    match open_append w with
    | (Return _, w1) => let '(r, w') := body w1 in (r, drain w')
    | (Raise e, w1) => (Raise e, w1)
    end.

(** A row can be written when its text can be encoded as UTF-8, that is
    when no string in it holds a surrogate code point ([json.loads] yields
    one for an escape such as \ud800).  Numbers, truth values and [None] are
    written in ASCII, and so is a container, shown by its [repr], which
    escapes surrogates. *)
Definition is_surrogate (c : N) : bool := (0xD800 <=? c) && (c <=? 0xDFFF).

Definition cell_encodable (v : pyval) : bool :=
  match v with
  | PStr s => negb (existsb is_surrogate s)
  | _ => true
  end.

Definition encodable (r : row) : bool := forallb cell_encodable r.

(** [writer.writerow(r)]: the line is encoded, which raises
    [UnicodeEncodeError] for a row that cannot be, and goes to the buffer.
    The script asks for no flush; when the buffer decides to drain, what
    was waiting goes to disk and the new row waits. *)
Definition writerow (r : row) : M unit :=
  fun w =>
    if encodable r then
      (Return tt,
       if autoflush w (pending w ++ [r]) then set_pending [r] (drain w)
       else set_pending (pending w ++ [r]) w)
    else (Raise UnicodeEncodeError, w).

Definition requests_post (params : request) : M response :=
  fun w =>
    let w' := set_posted (posted w ++ [params]) w in
    match remote w (List.length (posted w)) params with
    | Responded r => (Return r, w')
    | Failed e => (Raise e, w')
    end.

(** Lines 132-138: the parameters of the request for one coordinate. *)
Definition params_for (sd ed : pystr) (lon lat : option pystr) : request :=
  {| loc := str_of_field lon ++ lit "," ++ str_of_field lat;
     sdate := sd;
     edate := ed;
     grid := 21;
     elems := lit "maxt,mint,pcpn" |}.

(** Lines 142-143: [for row in ...: writer.writerow([str(id)] + row)]. *)
Definition write_data (id : option pystr) (items : list pyval) : M unit :=
  for_each items
    (fun r => cells <- lift (py_list_add [PStr (str_of_field id)] r) ;;
              writerow cells).

(** The f-strings of lines 144 and 146. *)
Definition fetching_notice (id : option pystr) : pystr :=
  lit "Fetching data for id " ++ str_of_field id ++ lit "...".

Definition error_report (lon lat : option pystr) (r : response) : pystr :=
  lit "Error for coordinates " ++ str_of_field lon ++ lit ", "
  ++ str_of_field lat ++ lit ": " ++ str_of_int (status_code r)
  ++ lit ", " ++ text r.

(** Lines 129-146, the body of [for entry in coordinates]. *)
Definition process_entry (sd ed : pystr) (e : entry) : M unit :=
  lat <- lift (getitem e (lit "lat")) ;;
  lon <- lift (getitem e (lit "lon")) ;;
  id <- lift (getitem e (lit "id")) ;;
  response <- requests_post (params_for sd ed lon lat) ;;
  if Z.eqb (status_code response) 200 then
    json_data <- lift (json response) ;;
    data <- lift (py_getitem json_data (lit "data")) ;;
    items <- lift (py_iter data) ;;
    write_data id items ;;
    print (fetching_notice id)
  else
    print (error_report lon lat response).

Definition newline : pystr := [10].

Definition completion_notice : pystr :=
  newline ++ lit "Task complete. Check the '.results' subdirectory for CSV output."
  ++ newline.

(** Lines 121-147, the body of the [with] block. *)
Definition write_results (sd ed : pystr) (coordinates : list entry)
    (file_is_empty : bool) : M unit :=
  (if file_is_empty then writerow headers else ret tt) ;;
  for_each coordinates (process_entry sd ed) ;;
  print completion_notice.

(** Lines 107-147: everything after the inputs have been read. *)
Definition store_results (sd ed : pystr) (coordinates : list entry)
  : M unit :=
  dir_exists <- results_dir_exists ;;
  (if negb dir_exists then makedirs else ret tt) ;;
  file_is_empty <- artifact_is_empty ;;
  with_open_append (write_results sd ed coordinates file_is_empty).

Definition fetch_prism_daily_data : M unit :=
  sd <- get_start_date_input ;;
  ed <- get_end_date_input ;;
  coordinates <- import_coordinates ;;
  store_results sd ed coordinates.

(** Lines 100-104 on their own: the three inputs of a run. *)
Definition read_inputs : M (pystr * pystr * list entry) :=
  sd <- get_start_date_input ;;
  ed <- get_end_date_input ;;
  coordinates <- import_coordinates ;;
  ret (sd, ed, coordinates).

(** ** Vocabulary of the statements *)

(** [extends w w' out reqs rows]: from [w] to [w'] the chunks [out] were
    printed, the requests [reqs] sent and the rows [rows] written to the
    output file, and nothing else changed; what is on disk only grew, and
    did not grow at all if the buffer never drains by itself. *)
Record extends (w w' : world) (out : list pystr) (reqs : list request)
    (rows : list row) : Prop := {
  ext_stdin : stdin w' = stdin w;
  ext_stdout : stdout w' = stdout w ++ out;
  ext_coordinates_dir : coordinates_dir w' = coordinates_dir w;
  ext_remote : remote w' = remote w;
  ext_posted : posted w' = posted w ++ reqs;
  ext_autoflush : autoflush w' = autoflush w;
  ext_contents : contents w' = contents w ++ rows;
  ext_disk :
    exists more,
      artifact_rows w' = artifact_rows w ++ more
      /\ ((forall waiting, autoflush w waiting = false) -> more = [])
}.

(** An entry that has the three fields the loop reads. *)
Definition coordinate_record (e : entry) (id lat lon : option pystr) : Prop :=
  lookup (lit "id") e = Some id
  /\ lookup (lit "lat") e = Some lat
  /\ lookup (lit "lon") e = Some lon.

(** The rows of one coordinate: its identifier in front of each row of the
    service. *)
Definition rows_for (id : option pystr) (data : list row) : list row :=
  map (fun r => PStr (str_of_field id) :: r) data.

(** What a run puts in front of its rows: the header when the file was
    missing or empty, nothing otherwise. *)
Definition header_part (existing : list row) : list row :=
  match existing with
  | [] => [headers]
  | _ :: _ => []
  end.

(** The body of a response is a JSON object whose [data] is a list of
    rows, each row a list. *)
Definition daily_series (r : response) (data : list row) : Prop :=
  exists v,
    json r = Return v
    /\ py_getitem v (lit "data") = Return (PList (map PList data)).

(** One coordinate together with the answer of the service to its
    request: the entry, its three fields, the response and, for a response
    with status 200, the daily rows of its body. *)
Record exchange : Type := {
  ex_entry : entry;
  ex_id : option pystr;
  ex_lat : option pystr;
  ex_lon : option pystr;
  ex_response : response;
  ex_data : list row
}.

Definition succeeded (x : exchange) : bool :=
  Z.eqb (status_code (ex_response x)) 200.

Definition request_of (sd ed : pystr) (x : exchange) : request :=
  params_for sd ed (ex_lon x) (ex_lat x).

(** [served w sd ed n xs]: the entries of [xs] are coordinate records and,
    posted in this order from the [n]-th request of the run on, their
    requests get the responses recorded in [xs]. *)
Fixpoint served (w : world) (sd ed : pystr) (n : nat) (xs : list exchange)
  : Prop :=
  match xs with
  | [] => True
  | x :: xs' =>
      coordinate_record (ex_entry x) (ex_id x) (ex_lat x) (ex_lon x)
      /\ remote w n (request_of sd ed x) = Responded (ex_response x)
      /\ served w sd ed (S n) xs'
  end.

(** Every response with status 200 carries a well-formed body, whose
    rows, with the identifier in front, can be encoded. *)
Definition bodies_well_formed (xs : list exchange) : Prop :=
  Forall (fun x => succeeded x = true ->
                   daily_series (ex_response x) (ex_data x)
                   /\ forallb encodable (rows_for (ex_id x) (ex_data x)) = true)
    xs.

(** The rows and the printed line a coordinate should give rise to. *)
Definition rows_of (x : exchange) : list row :=
  if succeeded x then rows_for (ex_id x) (ex_data x) else [].

Definition report_of (x : exchange) : pystr :=
  if succeeded x then fetching_notice (ex_id x)
  else error_report (ex_lon x) (ex_lat x) (ex_response x).

(** A row of the shape written at line 143 for one of the entries. *)
Definition coordinate_row (coordinates : list entry) (r : row) : Prop :=
  exists e id cells,
    In e coordinates
    /\ lookup (lit "id") e = Some id
    /\ r = PStr (str_of_field id) :: cells.

(** A row of the shape written at line 143, whatever the coordinate. *)
Definition data_row (r : row) : Prop :=
  exists id cells, r = PStr (str_of_field id) :: cells.

(** The run when the [with] block has opened the file and dealt with the
    header: the loop is about to start. *)
Definition loop_start (w : world) : world :=
  snd ((if match artifact_rows w with [] => true | _ :: _ => false end
        then writerow headers else ret tt) (opened w)).

(** What is left of the output file if the process is killed now: the rows
    on disk; the buffer goes with the process. *)
Definition survives_a_kill (w : world) : list row := artifact_rows w.

(** The run at the moment the first [k] coordinates have been dealt with
    (or at the exception, if one of them raised): the file is still open,
    the loop is about to take the next coordinate. *)
Definition in_flight (sd ed : pystr) (coordinates : list entry) (k : nat)
    (w : world) : world :=
  snd (for_each (firstn k coordinates) (process_entry sd ed) (loop_start w)).

(** [only_talks w w']: between [w] and [w'] the script only read stdin and
    wrote stdout. *)
Definition only_talks (w w' : world) : Prop :=
  coordinates_dir w' = coordinates_dir w
  /\ results w' = results w
  /\ remote w' = remote w
  /\ posted w' = posted w
  /\ autoflush w' = autoflush w
  /\ pending w' = pending w.

(** The files of a listing that [import_coordinates] opens, and the
    ordered union of their rows in the words of the specification: the rows
    of the first file, then those of the second, and so on. *)
Definition csv_files (files : list (pystr * file_read)) : list (pystr * file_read) :=
  filter (fun f => endswith (fst f) (lit ".csv")) files.

Definition ordered_union (files : list (pystr * file_read)) : list entry :=
  flat_map (fun f => match snd f with
                     | Parsed rows => rows
                     | Unreadable _ => []
                     end)
    (csv_files files).

Definition readable (f : pystr * file_read) : Prop :=
  exists rows, snd f = Parsed rows.

(** A response with status 200 whose body cannot be used: it is not JSON,
    or it is JSON in which ['data'] cannot be looked up. *)
Definition body_unusable (r : response) (ex : exn) : Prop :=
  json r = Raise ex
  \/ (exists v, json r = Return v /\ py_getitem v (lit "data") = Raise ex).

(** What failure isolation promises for a run over the exchanges [xs],
    [w0] being the world once the inputs are read: the run returns; the
    file holds what it held, the header if it was missing or empty, and the
    rows of exactly the coordinates that got a 200; one line was printed per
    coordinate, the error report for those that failed, and then the
    completion notice; one request was sent per coordinate. *)
Definition isolates_failures (w w0 : world) (sd ed : pystr)
    (xs : list exchange) : Prop :=
  exists w',
    fetch_prism_daily_data w = (Return tt, w')
    /\ artifact_rows w'
       = artifact_rows w ++ header_part (artifact_rows w)
         ++ flat_map (fun x => rows_for (ex_id x) (ex_data x))
              (filter succeeded xs)
    /\ pending w' = []
    /\ stdout w' = stdout w0 ++ map report_of xs ++ [completion_notice]
    /\ posted w' = posted w ++ map (request_of sd ed) xs.

(** What an abort at one coordinate leaves behind, [before] being the
    exchanges of the coordinates in front of it and [rq] its request: the
    run ends with the exception [ex]; the closed file holds the rows of the
    earlier coordinates; the last thing printed is the line of the last of
    them, so neither a report for this coordinate nor the completion
    notice; the last request sent is [rq], so none for a later coordinate. *)
Definition aborts_at (w w0 : world) (sd ed : pystr) (before : list exchange)
    (rq : request) (ex : exn) : Prop :=
  exists w',
    fetch_prism_daily_data w = (Raise ex, w')
    /\ artifact_rows w'
       = artifact_rows w ++ header_part (artifact_rows w)
         ++ flat_map rows_of before
    /\ pending w' = []
    /\ stdout w' = stdout w0 ++ map report_of before
    /\ posted w' = posted w ++ map (request_of sd ed) before ++ [rq].

(** The rows an output file can hold when only this script has written to
    it: none (no file yet, or an empty one), or what a run that got as far
    as the file left in it when it ended, by returning or by an exception,
    having found rows that were themselves so produced. *)
Inductive produced : list row -> Prop :=
| produced_nothing : produced []
| produced_by_a_run (w w0 : world) (sd ed : pystr) (cs : list entry) :
    produced (artifact_rows w) ->
    read_inputs w = (Return (sd, ed, cs), w0) ->
    produced (artifact_rows (snd (fetch_prism_daily_data w))).

(** ** Concrete runs *)

(** The buffer of the output file in the examples: CPython's default size,
    8 KiB, handing on what waits in it when the line to be written would
    not fit beside it.  [csv_line] is the line written for a row (excel
    dialect: comma, quotes when needed, CRLF); a container in a cell is
    written as its [repr].  Python shows some further unprintable code
    points of a string inside a container as escapes; they are counted here
    as they are.  The examples stay far below the size. *)
Fixpoint join (sep : pystr) (parts : list pystr) : pystr :=
  match parts with
  | [] => []
  | [p] => p
  | p :: rest => p ++ sep ++ join sep rest
  end.

Definition hex_digit (n : N) : N := if n <? 10 then 48 + n else 87 + n.

Definition hex2 (c : N) : pystr := [hex_digit (c / 16); hex_digit (c mod 16)].

Definition hex4 (c : N) : pystr := hex2 (c / 256) ++ hex2 (c mod 256).

(** [repr(s)] for a string: single quotes, unless the string holds an
    apostrophe and no double quote. *)
Definition repr_str (s : pystr) : pystr :=
  let quote :=
    if existsb (N.eqb 39) s && negb (existsb (N.eqb 34) s) then 34 else 39 in
  [quote]
  ++ flat_map
       (fun c =>
          if c =? 92 then [92; 92]
          else if c =? quote then [92; quote]
          else if c =? 10 then [92; 110]
          else if c =? 13 then [92; 114]
          else if c =? 9 then [92; 116]
          else if (c <? 32) || (c =? 127) then [92; 120] ++ hex2 c
          else if is_surrogate c then [92; 117] ++ hex4 c
          else [c])
       s
  ++ [quote].

Fixpoint repr (v : pyval) : pystr :=
  match v with
  | PNone => lit "None"
  | PBool true => lit "True"
  | PBool false => lit "False"
  | PInt z => str_of_int z
  | PFloat r => r
  | PStr s => repr_str s
  | PList items => lit "[" ++ join (lit ", ") (map repr items) ++ lit "]"
  | PDict items =>
      lit "{"
      ++ join (lit ", ")
           (map (fun kv => let '(k, x) := kv in
                           repr_str k ++ lit ": " ++ repr x) items)
      ++ lit "}"
  end.

Definition csv_cell (v : pyval) : pystr :=
  match v with
  | PNone => []
  | PStr s => s
  | _ => repr v
  end.

Definition csv_field (s : pystr) : pystr :=
  if existsb (fun c => (c =? 44) || (c =? 34) || (c =? 13) || (c =? 10)) s
  then [34] ++ flat_map (fun c => if c =? 34 then [34; 34] else [c]) s ++ [34]
  else s.

(** A row whose only field is empty is written as two quotes. *)
Definition csv_line (r : row) : pystr :=
  match map csv_cell r with
  | [[]] => [34; 34]
  | cells => join [44] (map csv_field cells)
  end
  ++ [13; 10].

Definition utf8_size (s : pystr) : N :=
  fold_right
    (fun c n => (if c <? 0x80 then 1 else if c <? 0x800 then 2
                 else if c <? 0x10000 then 3 else 4) + n)
    0 s.

Definition buffer_8k (waiting : list row) : bool :=
  8192 <? utf8_size (flat_map csv_line waiting).

(** A fresh process at its prompt. *)
Definition desk (typed : list pystr) (dir : dir_state) (res : results_state)
    (service : nat -> request -> post_result) : world :=
  {| stdin := typed; stdout := []; coordinates_dir := dir; results := res;
     remote := service; posted := []; autoflush := buffer_8k; pending := [] |}.

Definition site (id lat lon : string) : entry :=
  [(lit "id", Some (lit id)); (lit "lat", Some (lit lat));
   (lit "lon", Some (lit lon))].

Definition a1 : entry := site "A1" "40.0" "-75.0".
Definition a2 : entry := site "A2" "41.5" "-76.25".

Definition day1 : pystr := lit "2020-01-01".
Definition day2 : pystr := lit "2020-01-02".
Definition dates : list pystr := [day1; day2].

Definition a1_data : list row :=
  [ [PStr (lit "2020-01-01"); PInt 32; PInt 20; PFloat (lit "0.1")];
    [PStr (lit "2020-01-02"); PInt 30; PInt 18; PFloat (lit "0.0")] ].

Definition quoted (s : string) : pystr := [34] ++ lit s ++ [34].

Definition a1_response : response :=
  {| status_code := 200;
     text := lit "{" ++ quoted "data" ++ lit ":[[" ++ quoted "2020-01-01"
             ++ lit ",32,20,0.1],[" ++ quoted "2020-01-02"
             ++ lit ",30,18,0.0]]}";
     json := Return (PDict [(lit "data", PList (map PList a1_data))]) |}.

Definition a2_data : list row :=
  [ [PStr (lit "2020-01-01"); PInt 31; PInt 19; PFloat (lit "0.25")] ].

Definition a2_response : response :=
  {| status_code := 200;
     text := lit "{" ++ quoted "data" ++ lit ":[[" ++ quoted "2020-01-01"
             ++ lit ",31,19,0.25]]}";
     json := Return (PDict [(lit "data", PList (map PList a2_data))]) |}.

Definition bad_request : response :=
  {| status_code := 400;
     text := lit "Invalid location";
     json := Raise JSONDecodeError |}.

(** Status 200 with a page that is not JSON, and status 200 with a JSON
    object that has an [error] and no [data]. *)
Definition html_page : response :=
  {| status_code := 200;
     text := lit "<html>Service under maintenance</html>";
     json := Raise JSONDecodeError |}.

Definition error_object : response :=
  {| status_code := 200;
     text := lit "{" ++ quoted "error" ++ lit ":" ++ quoted "Invalid date"
             ++ lit "}";
     json := Return (PDict [(lit "error", PStr (lit "Invalid date"))]) |}.

(** A service that answers by location: [at_a1] for A1, [at_a2] for A2. *)
Definition service (at_a1 at_a2 : post_result) : nat -> request -> post_result :=
  fun _ rq =>
    if pystr_eqb (loc rq) (lit "-75.0,40.0") then at_a1
    else if pystr_eqb (loc rq) (lit "-76.25,41.5") then at_a2
    else Responded bad_request.

Definition one_file (rows : list entry) : dir_state :=
  Listing [(lit "sites.csv", Parsed rows)].

(** The end-to-end scenario of the specification: A1 alone. *)
Definition scenario : world :=
  desk dates (one_file [a1]) NoResultsDir
    (service (Responded a1_response) (Responded a2_response)).

(** A1 succeeds, A2 gets status 400. *)
Definition a2_rejected : world :=
  desk dates (one_file [a1; a2]) NoResultsDir
    (service (Responded a1_response) (Responded bad_request)).

(** Both succeed. *)
Definition both_served : world :=
  desk dates (one_file [a1; a2]) NoResultsDir
    (service (Responded a1_response) (Responded a2_response)).

(** A1 gets status 200 with an HTML page; A2 would succeed. *)
Definition a1_html : world :=
  desk dates (one_file [a1; a2]) NoResultsDir
    (service (Responded html_page) (Responded a2_response)).

(** A1 succeeds; A2 gets status 200 and an error object. *)
Definition a2_error_object : world :=
  desk dates (one_file [a1; a2]) NoResultsDir
    (service (Responded a1_response) (Responded error_object)).

(** The request for A1 times out; A2 would succeed. *)
Definition a1_times_out : world :=
  desk dates (one_file [a1; a2]) NoResultsDir
    (service (Failed Timeout) (Responded a2_response)).

(** A1 succeeds; the request for A2 times out. *)
Definition a2_times_out : world :=
  desk dates (one_file [a1; a2]) NoResultsDir
    (service (Responded a1_response) (Failed Timeout)).

(** A run that finds the file the scenario has just left. *)
Definition same_second : world :=
  desk dates (one_file [a1; a2])
    (ResultsDir (Some (headers :: rows_for (Some (lit "A1")) a1_data)))
    (service (Responded a1_response) (Responded bad_request)).

(** Status 200 with rows whose date is the escape \ud800: [json.loads]
    makes a string of one surrogate of it. *)
Definition surrogate_data : list row :=
  [ [PStr [0xD800]; PInt 32; PInt 20; PFloat (lit "0.1")] ].

Definition surrogate_response : response :=
  {| status_code := 200;
     text := lit "{" ++ quoted "data" ++ lit ":[[" ++ [34; 92] ++ lit "ud800"
             ++ [34] ++ lit ",32,20,0.1]]}";
     json := Return (PDict [(lit "data", PList (map PList surrogate_data))]) |}.

Definition a1_surrogate : world :=
  desk dates (one_file [a1]) NoResultsDir
    (service (Responded surrogate_response) (Responded a2_response)).

(** 2023-08-03 in Arabic-Indic digits, and in fullwidth digits. *)
Definition arabic_indic_date : pystr :=
  [0x662; 0x660; 0x662; 0x663; dash; 0x660; 0x668; dash; 0x660; 0x663].

Definition fullwidth_date : pystr :=
  [0xFF12; 0xFF10; 0xFF12; 0xFF13; dash; 0xFF10; 0xFF18; dash; 0xFF10; 0xFF13].

(** '.coordinates' with two CSV files (and a text file), with none, and
    missing. *)
Definition two_files : world :=
  desk dates
    (Listing [(lit "north.csv", Parsed [a1]); (lit "notes.txt", Parsed []);
              (lit "south.csv", Parsed [a2])])
    NoResultsDir (service (Responded a1_response) (Responded a2_response)).

Definition no_csv_file : world :=
  desk dates (Listing [(lit "notes.txt", Parsed [])]) NoResultsDir
    (service (Responded a1_response) (Responded a2_response)).

Definition no_directory : world :=
  desk dates (Unlistable FileNotFoundError) NoResultsDir
    (service (Responded a1_response) (Responded a2_response)).

Definition locked_directory : world :=
  desk dates (Unlistable PermissionError) NoResultsDir
    (service (Responded a1_response) (Responded a2_response)).

(** The exchanges of the examples. *)
Definition exchange_a1 (r : response) (data : list row) : exchange :=
  {| ex_entry := a1; ex_id := Some (lit "A1"); ex_lat := Some (lit "40.0");
     ex_lon := Some (lit "-75.0"); ex_response := r; ex_data := data |}.

Definition exchange_a2 (r : response) (data : list row) : exchange :=
  {| ex_entry := a2; ex_id := Some (lit "A2"); ex_lat := Some (lit "41.5");
     ex_lon := Some (lit "-76.25"); ex_response := r; ex_data := data |}.

(** ** Vocabulary of the further properties *)

Definition start_prompt : pystr := lit "Start date (YYYY-MM-DD): ".
Definition end_prompt : pystr := lit "End date (YYYY-MM-DD): ".

Definition incorrect_format : pystr :=
  lit "Incorrect format. Please make sure to follow the YYYY-MM-DD pattern.".

(** What a prompt loop writes while it turns down the lines [rejected]:
    for each of them the prompt, then the complaint. *)
Definition reprompts (prompt : pystr) (rejected : list pystr) : list pystr :=
  flat_map (fun _ => [prompt; incorrect_format]) rejected.

(** The typed lines that have the shape of a date. *)
Definition well_formed_dates (typed : list pystr) : list pystr :=
  filter (fullmatch date_pattern) typed.

(** [rq] is the request of line 139 for the entry [e]: longitude, a comma
    and latitude as the location, the two dates as typed, grid 21 and the
    three elements. *)
Definition request_for_entry (sd ed : pystr) (e : entry) (rq : request) : Prop :=
  exists lon lat,
    lookup (lit "lon") e = Some lon
    /\ lookup (lit "lat") e = Some lat
    /\ loc rq = str_of_field lon ++ lit "," ++ str_of_field lat
    /\ sdate rq = sd
    /\ edate rq = ed
    /\ grid rq = 21%Z
    /\ elems rq = lit "maxt,mint,pcpn".

(** A line printed by the loop: the notice of line 144 or the report of
    line 146. *)
Definition report_line (l : pystr) : Prop :=
  (exists id, l = fetching_notice id)
  \/ (exists lon lat r, l = error_report lon lat r).

(** The rows [write_data] gets to write: those of the items at the front
    of [data] that are lists and, with the identifier in front, can be
    encoded.  And what stops it, if anything: [TypeError] at an item that
    is not a list, [UnicodeEncodeError] at a row that cannot be encoded. *)
Fixpoint rows_written (id : option pystr) (items : list pyval) : list row :=
  match items with
  | PList r :: rest =>
      if encodable (PStr (str_of_field id) :: r)
      then (PStr (str_of_field id) :: r) :: rows_written id rest
      else []
  | _ => []
  end.

Fixpoint stopped_by (id : option pystr) (items : list pyval) : option exn :=
  match items with
  | [] => None
  | PList r :: rest =>
      if encodable (PStr (str_of_field id) :: r) then stopped_by id rest
      else Some UnicodeEncodeError
  | _ :: _ => Some TypeError
  end.

Definition outcome_of (stop : option exn) : outcome unit :=
  match stop with
  | None => Return tt
  | Some ex => Raise ex
  end.

Definition is_list (v : pyval) : bool :=
  match v with
  | PList _ => true
  | _ => false
  end.

Definition set_coordinates_dir (x : dir_state) (w : world) : world :=
  {| stdin := stdin w; stdout := stdout w; coordinates_dir := x;
     results := results w; remote := remote w; posted := posted w;
     autoflush := autoflush w; pending := pending w |}.

Definition set_autoflush (x : list row -> bool) (w : world) : world :=
  {| stdin := stdin w; stdout := stdout w; coordinates_dir := coordinates_dir w;
     results := results w; remote := remote w; posted := posted w;
     autoflush := x; pending := pending w |}.

(** An exception that [import_coordinates] has a handler for. *)
Definition handled (ex : exn) : bool :=
  match ex with
  | FileNotFoundError | PermissionError => true
  | _ => false
  end.

(** The line the handler prints. *)
Definition handler_message (ex : exn) : pystr :=
  match ex with
  | FileNotFoundError => lit "Directory .coordinates not found."
  | _ => lit "No permission to read directory .coordinates."
  end.

(** Two worlds that differ at most in the policy of the buffer. *)
Definition same_outside (w1 w2 : world) : Prop :=
  stdin w1 = stdin w2
  /\ stdout w1 = stdout w2
  /\ coordinates_dir w1 = coordinates_dir w2
  /\ results w1 = results w2
  /\ remote w1 = remote w2
  /\ posted w1 = posted w2
  /\ pending w1 = pending w2.

(** Two worlds, while the file is open, in which the script sees the same
    thing: they may differ in the policy of the buffer and in how much of
    the file is on disk. *)
Definition same_but_buffer (w1 w2 : world) : Prop :=
  stdin w1 = stdin w2
  /\ stdout w1 = stdout w2
  /\ coordinates_dir w1 = coordinates_dir w2
  /\ remote w1 = remote w2
  /\ posted w1 = posted w2
  /\ contents w1 = contents w2.

(** A computation that cannot tell such worlds apart. *)
Definition respects {A : Type} (m : M A) : Prop :=
  forall w1 w2,
    same_but_buffer w1 w2 ->
    fst (m w1) = fst (m w2) /\ same_but_buffer (snd (m w1)) (snd (m w2)).

(** An empty string and an empty object: the values other than a list
    over which a [for] loop runs without a single turn. *)
Definition is_empty_container (v : pyval) : bool :=
  match v with
  | PStr [] | PDict [] => true
  | _ => false
  end.

(** Further concrete runs. *)

(** A date typed the wrong way round, then two well-formed ones. *)
Definition retyped : world :=
  desk [lit "08-03-2023"; lit "2023-08-03"; lit "2023-08-10"] (one_file [a1])
    NoResultsDir (service (Responded a1_response) (Responded a2_response)).

(** One well-formed date and then a word. *)
Definition one_date_typed : world :=
  desk [lit "2020-01-01"; lit "tomorrow"] (one_file [a1]) NoResultsDir
    (service (Responded a1_response) (Responded a2_response)).

(** A CSV file whose first column is headed [ID]. *)
Definition id_misspelt : entry :=
  [(lit "ID", Some (lit "A1")); (lit "lat", Some (lit "40.0"));
   (lit "lon", Some (lit "-75.0"))].

Definition header_misspelt : world :=
  desk dates (one_file [id_misspelt; id_misspelt]) NoResultsDir
    (service (Responded a1_response) (Responded a2_response)).

(** Status 200 with a string between two rows of [data]. *)
Definition ragged_items : list pyval :=
  [ PList [PStr (lit "2020-01-01"); PInt 32; PInt 20; PFloat (lit "0.1")];
    PStr (lit "n/a");
    PList [PStr (lit "2020-01-03"); PInt 30; PInt 18; PFloat (lit "0.0")] ].

Definition ragged_response : response :=
  {| status_code := 200;
     text := lit "{" ++ quoted "data" ++ lit ":[[" ++ quoted "2020-01-01"
             ++ lit ",32,20,0.1]," ++ quoted "n/a" ++ lit ",["
             ++ quoted "2020-01-03" ++ lit ",30,18,0.0]]}";
     json := Return (PDict [(lit "data", PList ragged_items)]) |}.

Definition a1_ragged : world :=
  desk dates (one_file [a1]) NoResultsDir
    (service (Responded ragged_response) (Responded a2_response)).

(** north.csv can be read, south.csv cannot be opened. *)
Definition locked_file : world :=
  desk dates
    (Listing [(lit "north.csv", Parsed [a1]);
              (lit "south.csv", Unreadable PermissionError)])
    NoResultsDir (service (Responded a1_response) (Responded a2_response)).

(** '.coordinates' is a plain file. *)
Definition not_a_directory : world :=
  desk dates (Unlistable (OtherError (lit "NotADirectoryError"))) NoResultsDir
    (service (Responded a1_response) (Responded a2_response)).


(** Status 200 with an object under [data]. *)
Definition object_response : response :=
  {| status_code := 200;
     text := lit "{" ++ quoted "data" ++ lit ":{" ++ quoted "2020-01-01"
             ++ lit ":[32,20,0.1]}}";
     json := Return (PDict [(lit "data",
                             PDict [(lit "2020-01-01",
                                     PList [PInt 32; PInt 20;
                                            PFloat (lit "0.1")])])]) |}.

Definition a1_object : world :=
  desk dates (one_file [a1]) NoResultsDir
    (service (Responded object_response) (Responded a2_response)).

(** The end date typed first, a slip, then the start date. *)
Definition end_before_start : world :=
  desk [lit "2020-12-31"; lit "1 Jan"; lit "2020-01-01"; lit "left over"]
    (one_file [a1]) NoResultsDir
    (service (Responded a1_response) (Responded a2_response)).

(** * Properties *)

Arguments is_decimal : simpl never.

(** ** The date validator *)

Lemma fullmatch_date_shape (s : pystr) :
  fullmatch date_pattern s = true <-> date_shape s.
Proof.
  unfold fullmatch, date_shape. cbn. split.
  - intros H.
    repeat match type of H with
    | context [match ?l with [] => _ | _ :: _ => _ end] =>
        lazymatch l with
        | Some _ => fail
        | _ => is_var l; destruct l; cbn in H; try discriminate H
        end
    | context [if is_decimal ?c then _ else _] =>
        destruct (is_decimal c) eqn:?; cbn in H; try discriminate H
    | context [if N.eqb ?c dash then _ else _] =>
        destruct (N.eqb_spec c dash); cbn in H; try discriminate H
    end.
    subst. do 8 eexists. split; [reflexivity|].
    repeat constructor; assumption.
  - intros (y1 & y2 & y3 & y4 & m1 & m2 & d1 & d2 & -> & F).
    repeat match goal with
    | H : Forall _ (_ :: _) |- _ => inversion H; subst; clear H
    end.
    cbn.
    repeat (first [ rewrite N.eqb_refl
                  | match goal with
                    | H : is_decimal _ = true |- _ => rewrite H; clear H
                    end ]; cbn).
    reflexivity.
Qed.

Lemma ask_date_returns_match (prompt : pystr) (typed : list pystr) :
  forall w s, fst (ask_date prompt typed w) = Return s ->
              fullmatch date_pattern s = true.
Proof.
  induction typed as [|t rest IH]; intros w s; cbn.
  - discriminate.
  - destruct (fullmatch date_pattern t) eqn:E; cbn.
    + intros [= <-]. exact E.
    + apply IH.
Qed.

Lemma ask_date_first_line (prompt : pystr) (w : world) (s : pystr)
    (rest : list pystr) :
  fst (ask_date prompt (s :: rest) w) = Return s
  <-> fullmatch date_pattern s = true.
Proof.
  cbn. destruct (fullmatch date_pattern s) eqn:E; cbn.
  - tauto.
  - split; [|discriminate]. intros H.
    apply ask_date_returns_match in H. congruence.
Qed.

Lemma is_decimal_below_128 (c : N) :
  c < 128 -> is_decimal c = (48 <=? c) && (c <=? 57).
Proof.
  intros H. unfold is_decimal, decimal_runs. cbn [existsb].
  repeat match goal with
         | |- context [(?f <=? c) && (c <? ?f + 10)] =>
             lazymatch f with
             | 48 => fail
             | _ =>
                 replace (f <=? c) with false
                   by (symmetry; apply N.leb_gt; lia);
                 cbn [andb orb]
             end
         end.
  rewrite ?orb_false_r.
  destruct (N.leb_spec 48 c), (N.ltb_spec c (48 + 10)), (N.leb_spec c 57);
    cbn; try reflexivity; lia.
Qed.

Lemma digit_0_9_is_decimal (c : N) : is_digit_0_9 c -> is_decimal c = true.
Proof.
  intros [L U]. rewrite is_decimal_below_128 by lia.
  apply andb_true_iff. split; apply N.leb_le; assumption.
Qed.

Lemma decimal_below_128_is_digit_0_9 (c : N) :
  c < 128 -> is_decimal c = true -> is_digit_0_9 c.
Proof.
  intros H D. rewrite is_decimal_below_128 in D by exact H.
  apply andb_true_iff in D. destruct D as [L U].
  apply N.leb_le in L, U. split; assumption.
Qed.

Lemma ascii_date_shape_is_date_shape (s : pystr) :
  ascii_date_shape s -> date_shape s.
Proof.
  intros (y1 & y2 & y3 & y4 & m1 & m2 & d1 & d2 & -> & F).
  exists y1, y2, y3, y4, m1, m2, d1, d2. split; [reflexivity|].
  eapply Forall_impl; [|exact F]. exact digit_0_9_is_decimal.
Qed.

Lemma date_shape_below_128 (s : pystr) :
  Forall (fun c => c < 128) s -> date_shape s -> ascii_date_shape s.
Proof.
  intros B (y1 & y2 & y3 & y4 & m1 & m2 & d1 & d2 & -> & F).
  exists y1, y2, y3, y4, m1, m2, d1, d2. split; [reflexivity|].
  repeat match goal with
         | H : Forall _ (_ :: _) |- _ => inversion H; subst; clear H
         end.
  repeat constructor; apply decimal_below_128_is_digit_0_9; assumption.
Qed.

(** C4, as amended.  The test applied to a typed date, [re.fullmatch]
    against \d{4}-\d{2}-\d{2}, succeeds exactly on the strings made of four
    decimal digits, a dash, two decimal digits, a dash and two decimal
    digits, where \d takes any Unicode decimal digit and not only 0 to 9.
    So every YYYY-MM-DD written with the digits 0 to 9 is accepted and,
    among the strings of ASCII characters, nothing else is; both prompts
    hand back the line just typed exactly when the test succeeds.  Nothing
    looks at the calendar: 2023-99-99 is accepted, while 08-03-2023,
    2023/08/03 and 2023-8-3 are rejected. *)
Theorem date_validator_accepts_decimal_digit_dates :
  (forall s, fullmatch date_pattern s = true <-> date_shape s)
  /\ (forall s, ascii_date_shape s -> fullmatch date_pattern s = true)
  /\ (forall s, Forall (fun c => c < 128) s ->
                fullmatch date_pattern s = true -> ascii_date_shape s)
  /\ (forall w s rest,
        fst (get_start_date_input (set_stdin (s :: rest) w)) = Return s
        <-> date_shape s)
  /\ (forall w s rest,
        fst (get_end_date_input (set_stdin (s :: rest) w)) = Return s
        <-> date_shape s)
  /\ fullmatch date_pattern (lit "2023-99-99") = true
  /\ fullmatch date_pattern (lit "08-03-2023") = false
  /\ fullmatch date_pattern (lit "2023/08/03") = false
  /\ fullmatch date_pattern (lit "2023-8-3") = false.
Proof.
  split; [exact fullmatch_date_shape|].
  split; [|split; [|split; [|split]]].
  - intros s H. now apply fullmatch_date_shape, ascii_date_shape_is_date_shape.
  - intros s B H. apply date_shape_below_128; [exact B|].
    now apply fullmatch_date_shape.
  - intros w s rest. unfold get_start_date_input.
    rewrite <- fullmatch_date_shape. apply ask_date_first_line.
  - intros w s rest. unfold get_end_date_input.
    rewrite <- fullmatch_date_shape. apply ask_date_first_line.
  - repeat split; vm_compute; reflexivity.
Qed.

(** ** How the steps of the script change the world *)

Lemma disk_untouched (w : world) :
  exists more,
    artifact_rows w = artifact_rows w ++ more
    /\ ((forall waiting, autoflush w waiting = false) -> more = []).
Proof. exists []. now rewrite app_nil_r. Qed.

Lemma extends_refl (w : world) : extends w w [] [] [].
Proof.
  constructor; rewrite ?app_nil_r; try reflexivity. apply disk_untouched.
Qed.

Lemma extends_trans (w1 w2 w3 : world) out1 out2 reqs1 reqs2 rows1 rows2 :
  extends w1 w2 out1 reqs1 rows1 ->
  extends w2 w3 out2 reqs2 rows2 ->
  extends w1 w3 (out1 ++ out2) (reqs1 ++ reqs2) (rows1 ++ rows2).
Proof.
  intros [] []. constructor; try congruence.
  - rewrite app_assoc. congruence.
  - rewrite app_assoc. congruence.
  - rewrite app_assoc. congruence.
  - destruct ext_disk0 as (m1 & E1 & N1), ext_disk1 as (m2 & E2 & N2).
    exists (m1 ++ m2). split.
    + rewrite app_assoc. congruence.
    + intros H. rewrite N1 by exact H. rewrite N2; [reflexivity|].
      intros waiting. rewrite ext_autoflush0. apply H.
Qed.

Lemma print_extends (s : pystr) (w : world) :
  extends w (snd (print s w)) [s] [] [].
Proof.
  constructor; cbn; rewrite ?app_nil_r; try reflexivity.
  apply (disk_untouched w).
Qed.

(** A row that can be encoded is appended; one that cannot raises and
    leaves the file as it was. *)
Lemma writerow_returns (r : row) (w : world) :
  encodable r = true -> writerow r w = (Return tt, snd (writerow r w)).
Proof. unfold writerow. now intros ->. Qed.

Lemma writerow_raises (r : row) (w : world) :
  encodable r = false -> writerow r w = (Raise UnicodeEncodeError, w).
Proof. unfold writerow. now intros ->. Qed.

Lemma writerow_extends (r : row) (w : world) :
  encodable r = true -> extends w (snd (writerow r w)) [] [] [r].
Proof.
  intros H. unfold writerow. rewrite H. cbn [snd].
  destruct (autoflush w (pending w ++ [r])) eqn:A; constructor; cbn;
    rewrite ?app_nil_r; try reflexivity.
  - exists (pending w). split; [reflexivity|].
    intros N. rewrite N in A. discriminate A.
  - unfold contents; cbn. now rewrite app_assoc.
  - apply (disk_untouched w).
Qed.

(** A [bind] evaluated: the equations used to step through the script. *)
Lemma bind_return {A B : Type} (m : M A) (k : A -> M B) (w w' : world) (a : A) :
  m w = (Return a, w') -> bind m k w = k a w'.
Proof. unfold bind. now intros ->. Qed.

Lemma bind_raise {A B : Type} (m : M A) (k : A -> M B) (w w' : world) (e : exn) :
  m w = (Raise e, w') -> bind m k w = (Raise e, w').
Proof. unfold bind. now intros ->. Qed.

Lemma for_each_app {A : Type} (xs ys : list A) (body : A -> M unit) (w : world) :
  for_each (xs ++ ys) body w
  = (for_each xs body ;; for_each ys body) w.
Proof.
  revert w. induction xs as [|x xs IH]; intros w; cbn.
  - reflexivity.
  - unfold bind in *. destruct (body x w) as [[[]|e] w1]; [|reflexivity].
    apply IH.
Qed.

Lemma write_data_cons (id : option pystr) (r : row) (items : list pyval)
    (w : world) :
  write_data id (PList r :: items) w
  = (writerow (PStr (str_of_field id) :: r) ;; write_data id items) w.
Proof. reflexivity. Qed.

Lemma write_data_cons_list (id : option pystr) (r : row) (items : list pyval)
    (w : world) :
  encodable (PStr (str_of_field id) :: r) = true ->
  write_data id (PList r :: items) w
  = write_data id items (snd (writerow (PStr (str_of_field id) :: r) w)).
Proof.
  intros H. rewrite write_data_cons.
  exact (bind_return _ _ _ _ _ (writerow_returns _ w H)).
Qed.

Lemma write_data_cons_unencodable (id : option pystr) (r : row)
    (items : list pyval) (w : world) :
  encodable (PStr (str_of_field id) :: r) = false ->
  write_data id (PList r :: items) w = (Raise UnicodeEncodeError, w).
Proof.
  intros H. rewrite write_data_cons.
  exact (bind_raise _ _ _ _ _ (writerow_raises _ w H)).
Qed.

Lemma write_data_rows (id : option pystr) (data : list row) (w : world) :
  forallb encodable (rows_for id data) = true ->
  exists w',
    write_data id (map PList data) w = (Return tt, w')
    /\ extends w w' [] [] (rows_for id data).
Proof.
  revert w. induction data as [|r data IH]; intros w H.
  - exists w. split; [reflexivity|apply extends_refl].
  - cbn [rows_for map forallb] in H. apply andb_true_iff in H.
    destruct H as [Hr Hdata].
    cbn [map]. rewrite write_data_cons_list by exact Hr.
    destruct (IH (snd (writerow (PStr (str_of_field id) :: r) w)) Hdata)
      as (w' & R & E).
    exists w'. split; [exact R|].
    exact (extends_trans _ _ _ _ _ _ _ _ _ (writerow_extends _ w Hr) E).
Qed.

Lemma requests_post_responded (params : request) (w : world) (r : response) :
  remote w (List.length (posted w)) params = Responded r ->
  requests_post params w = (Return r, set_posted (posted w ++ [params]) w).
Proof. unfold requests_post. now intros ->. Qed.

Lemma requests_post_failed (params : request) (w : world) (ex : exn) :
  remote w (List.length (posted w)) params = Failed ex ->
  requests_post params w = (Raise ex, set_posted (posted w ++ [params]) w).
Proof. unfold requests_post. now intros ->. Qed.

Lemma posted_extends (params : request) (w : world) :
  extends w (set_posted (posted w ++ [params]) w) [] [params] [].
Proof.
  constructor; cbn; rewrite ?app_nil_r; try reflexivity.
  apply (disk_untouched w).
Qed.

Lemma lift_bind {A B : Type} (r : outcome A) (a : A) (k : A -> M B) (w : world) :
  r = Return a -> bind (lift r) k w = k a w.
Proof. now intros ->. Qed.

Lemma lift_bind_raise {A B : Type} (r : outcome A) (ex : exn) (k : A -> M B)
    (w : world) :
  r = Raise ex -> bind (lift r) k w = (Raise ex, w).
Proof. now intros ->. Qed.

(** ** One turn of the loop over the coordinates *)

Section Entry.

Variables (sd ed : pystr) (e : entry) (id lat lon : option pystr).
Hypothesis fields : coordinate_record e id lat lon.

Lemma process_entry_posts (w : world) :
  process_entry sd ed e w
  = (response <- requests_post (params_for sd ed lon lat) ;;
     if Z.eqb (status_code response) 200 then
       json_data <- lift (json response) ;;
       data <- lift (py_getitem json_data (lit "data")) ;;
       items <- lift (py_iter data) ;;
       write_data id items ;;
       print (fetching_notice id)
     else
       print (error_report lon lat response)) w.
Proof.
  destruct fields as (Hid & Hlat & Hlon).
  unfold process_entry.
  rewrite (lift_bind _ lat) by (unfold getitem; now rewrite Hlat).
  rewrite (lift_bind _ lon) by (unfold getitem; now rewrite Hlon).
  rewrite (lift_bind _ id) by (unfold getitem; now rewrite Hid).
  reflexivity.
Qed.

(** Status 200 and a well-formed body whose rows can be encoded: the rows
    are written and the notice of line 144 printed. *)
Lemma process_entry_ok (w : world) (r : response) (data : list row) :
  remote w (List.length (posted w)) (params_for sd ed lon lat) = Responded r ->
  status_code r = 200%Z ->
  daily_series r data ->
  forallb encodable (rows_for id data) = true ->
  exists w',
    process_entry sd ed e w = (Return tt, w')
    /\ extends w w' [fetching_notice id] [params_for sd ed lon lat] (rows_for id data).
Proof.
  intros Hpost Hstatus (v & Hjson & Hdata) Henc.
  rewrite process_entry_posts.
  rewrite (bind_return _ _ _ _ _ (requests_post_responded _ _ _ Hpost)).
  rewrite Hstatus, Z.eqb_refl.
  rewrite (lift_bind _ _ _ _ Hjson), (lift_bind _ _ _ _ Hdata).
  rewrite (lift_bind _ (map PList data)) by reflexivity.
  destruct (write_data_rows id data
              (set_posted (posted w ++ [params_for sd ed lon lat]) w) Henc)
    as (w2 & R & E2).
  rewrite (bind_return _ _ _ _ _ R).
  eexists. split; [reflexivity|].
  pose proof (posted_extends (params_for sd ed lon lat) w) as E1.
  pose proof (print_extends (fetching_notice id) w2) as E3.
  apply (extends_trans _ _ _ _ _ _ _ _ _ E1) in E2.
  apply (extends_trans _ _ _ _ _ _ _ _ _ E2) in E3.
  cbn [app] in E3. rewrite app_nil_r in E3. exact E3.
Qed.

(** Any other status: nothing is written, the line of 146 is printed and
    the loop goes on. *)
Lemma process_entry_error_status (w : world) (r : response) :
  remote w (List.length (posted w)) (params_for sd ed lon lat) = Responded r ->
  status_code r <> 200%Z ->
  exists w',
    process_entry sd ed e w = (Return tt, w')
    /\ extends w w' [error_report lon lat r] [params_for sd ed lon lat] [].
Proof.
  intros Hpost Hstatus.
  rewrite process_entry_posts.
  rewrite (bind_return _ _ _ _ _ (requests_post_responded _ _ _ Hpost)).
  apply Z.eqb_neq in Hstatus. rewrite Hstatus.
  eexists. split; [reflexivity|].
  exact (extends_trans _ _ _ _ _ _ _ _ _ (posted_extends (params_for sd ed lon lat) w)
           (print_extends _ _)).
Qed.

(** [requests.post] raises: the exception leaves [process_entry]; the
    request was sent, nothing was printed or written. *)
Lemma process_entry_post_raises (w : world) (ex : exn) :
  remote w (List.length (posted w)) (params_for sd ed lon lat) = Failed ex ->
  exists w',
    process_entry sd ed e w = (Raise ex, w')
    /\ extends w w' [] [params_for sd ed lon lat] [].
Proof.
  intros Hpost.
  rewrite process_entry_posts.
  rewrite (bind_raise _ _ _ _ _ (requests_post_failed _ _ _ Hpost)).
  eexists. split; [reflexivity|apply posted_extends].
Qed.

(** Status 200 but [response.json()] raises, or the value it returns has
    no ['data']: the exception leaves [process_entry]. *)
Lemma process_entry_body_raises (w : world) (r : response) (ex : exn) :
  remote w (List.length (posted w)) (params_for sd ed lon lat) = Responded r ->
  status_code r = 200%Z ->
  json r = Raise ex
  \/ (exists v, json r = Return v /\ py_getitem v (lit "data") = Raise ex) ->
  exists w',
    process_entry sd ed e w = (Raise ex, w')
    /\ extends w w' [] [params_for sd ed lon lat] [].
Proof.
  intros Hpost Hstatus Hbody.
  rewrite process_entry_posts.
  rewrite (bind_return _ _ _ _ _ (requests_post_responded _ _ _ Hpost)).
  rewrite Hstatus, Z.eqb_refl.
  destruct Hbody as [Hjson|(v & Hjson & Hdata)].
  - rewrite (lift_bind_raise _ _ _ _ Hjson).
    eexists. split; [reflexivity|apply posted_extends].
  - rewrite (lift_bind _ _ _ _ Hjson), (lift_bind_raise _ _ _ _ Hdata).
    eexists. split; [reflexivity|apply posted_extends].
Qed.

End Entry.

(** ** The loop over the coordinates *)

Lemma write_data_extends (id : option pystr) (items : list pyval) (w : world) :
  exists rows,
    extends w (snd (write_data id items w)) [] [] rows
    /\ Forall (fun r => exists cells, r = PStr (str_of_field id) :: cells) rows.
Proof.
  revert w. induction items as [|item items IH]; intros w.
  - exists []. split; [apply extends_refl|constructor].
  - destruct item;
      try (exists []; split; [apply extends_refl|constructor]).
    destruct (encodable (PStr (str_of_field id) :: items0)) eqn:H.
    + rewrite write_data_cons_list by exact H.
      destruct (IH (snd (writerow (PStr (str_of_field id) :: items0) w)))
        as (rows & E & F).
      exists ((PStr (str_of_field id) :: items0) :: rows). split.
      * exact (extends_trans _ _ _ _ _ _ _ _ _ (writerow_extends _ w H) E).
      * constructor; [now eexists|exact F].
    + rewrite write_data_cons_unencodable by exact H.
      exists []. split; [apply extends_refl|constructor].
Qed.

Lemma process_entry_extends (sd ed : pystr) (e : entry) (w : world) :
  exists out reqs rows,
    extends w (snd (process_entry sd ed e w)) out reqs rows
    /\ Forall (coordinate_row [e]) rows.
Proof.
  assert (Hnone : exists out reqs rows,
             extends w w out reqs rows /\ Forall (coordinate_row [e]) rows).
  { exists [], [], []. split; [apply extends_refl|constructor]. }
  unfold process_entry.
  unfold bind at 1, lift at 1, getitem at 1.
  destruct (lookup (lit "lat") e) as [lat|]; [|exact Hnone].
  unfold bind at 1, lift at 1, getitem at 1.
  destruct (lookup (lit "lon") e) as [lon|]; [|exact Hnone].
  unfold bind at 1, lift at 1, getitem at 1.
  destruct (lookup (lit "id") e) as [id|] eqn:Hid; [|exact Hnone].
  clear Hnone.
  pose proof (posted_extends (params_for sd ed lon lat) w) as E1.
  set (w1 := set_posted _ w) in *.
  assert (Hposted : exists out reqs rows,
             extends w w1 out reqs rows /\ Forall (coordinate_row [e]) rows).
  { exists [], [params_for sd ed lon lat], []. split; [exact E1|constructor]. }
  unfold bind at 1, requests_post.
  destruct (remote w (List.length (posted w)) (params_for sd ed lon lat))
    as [r|ex]; [|exact Hposted].
  fold w1.
  destruct (Z.eqb (status_code r) 200).
  - unfold bind at 1, lift at 1.
    destruct (json r) as [v|ex]; [|exact Hposted].
    unfold bind at 1, lift at 1.
    destruct (py_getitem v (lit "data")) as [data|ex]; [|exact Hposted].
    unfold bind at 1, lift at 1.
    destruct (py_iter data) as [items|ex]; [|exact Hposted].
    destruct (write_data_extends id items w1) as (rows & E2 & F).
    assert (F' : Forall (coordinate_row [e]) rows).
    { eapply Forall_impl; [|exact F]. intros r0 [cells ->].
      exists e, id, cells. split; [now left|split; [exact Hid|reflexivity]]. }
    apply (extends_trans _ _ _ _ _ _ _ _ _ E1) in E2.
    unfold bind at 1.
    destruct (write_data id items w1) as [[[]|ex] w2]; cbn [snd] in E2.
    + pose proof (extends_trans _ _ _ _ _ _ _ _ _ E2
                    (print_extends (fetching_notice id) w2)) as E3.
      cbn [app] in E3. rewrite app_nil_r in E3.
      eexists _, _, rows. split; [exact E3|exact F'].
    + cbn [app] in E2. eexists _, _, rows. split; [exact E2|exact F'].
  - eexists _, _, _. split; [|constructor].
    exact (extends_trans _ _ _ _ _ _ _ _ _ E1 (print_extends _ w1)).
Qed.

Lemma for_each_cons {A : Type} (x : A) (xs : list A) (body : A -> M unit)
    (w : world) :
  for_each (x :: xs) body w = (body x ;; for_each xs body) w.
Proof. reflexivity. Qed.

Lemma coordinate_row_incl (cs cs' : list entry) (r : row) :
  incl cs cs' -> coordinate_row cs r -> coordinate_row cs' r.
Proof.
  intros I (e & id & cells & Hin & Hid & ->).
  exists e, id, cells. auto.
Qed.

(** Whatever the entries and the answers, the loop only prints, posts and
    appends rows of the shape of line 143. *)
Lemma loop_extends (sd ed : pystr) (cs : list entry) (w : world) :
  exists out reqs rows,
    extends w (snd (for_each cs (process_entry sd ed) w)) out reqs rows
    /\ Forall (coordinate_row cs) rows.
Proof.
  revert w. induction cs as [|e cs IH]; intros w.
  - exists [], [], []. split; [apply extends_refl|constructor].
  - rewrite for_each_cons.
    destruct (process_entry_extends sd ed e w) as (out1 & reqs1 & rows1 & E1 & F1).
    unfold bind.
    destruct (process_entry sd ed e w) as [[[]|ex] w1]; cbn [snd] in E1.
    + destruct (IH w1) as (out2 & reqs2 & rows2 & E2 & F2).
      exists (out1 ++ out2), (reqs1 ++ reqs2), (rows1 ++ rows2). split.
      * exact (extends_trans _ _ _ _ _ _ _ _ _ E1 E2).
      * apply Forall_app. split.
        -- eapply Forall_impl; [|exact F1]. intros r.
           apply coordinate_row_incl. intros x [<-|[]]. now left.
        -- eapply Forall_impl; [|exact F2]. intros r.
           apply coordinate_row_incl. intros x Hx. now right.
    + exists out1, reqs1, rows1. split; [exact E1|].
      eapply Forall_impl; [|exact F1]. intros r.
      apply coordinate_row_incl. intros x [<-|[]]. now left.
Qed.

(** The loop stopped after [k] coordinates is a state the whole loop goes
    through: what the whole loop does comes on top of it. *)
Lemma loop_prefix (sd ed : pystr) (cs : list entry) (k : nat) (w : world) :
  exists out reqs rows,
    extends (snd (for_each (firstn k cs) (process_entry sd ed) w))
      (snd (for_each cs (process_entry sd ed) w)) out reqs rows
    /\ Forall (coordinate_row cs) rows.
Proof.
  pose proof (for_each_app (firstn k cs) (skipn k cs) (process_entry sd ed) w)
    as H.
  rewrite firstn_skipn in H. rewrite H. clear H. unfold bind.
  destruct (for_each (firstn k cs) (process_entry sd ed) w) as [[[]|ex] w1];
    cbn [snd].
  - destruct (loop_extends sd ed (skipn k cs) w1) as (out & reqs & rows & E & F).
    exists out, reqs, rows. split; [exact E|].
    eapply Forall_impl; [|exact F]. intros r. apply coordinate_row_incl.
    intros x Hx. rewrite <- (firstn_skipn k cs). apply in_or_app. now right.
  - exists [], [], []. split; [apply extends_refl|constructor].
Qed.

Lemma served_remote (w w' : world) (sd ed : pystr) (xs : list exchange) :
  remote w' = remote w ->
  forall n, served w sd ed n xs -> served w' sd ed n xs.
Proof.
  intros R. induction xs as [|x xs IH]; intros n; cbn.
  - trivial.
  - intros (F & P & S). rewrite R. auto.
Qed.

Lemma served_app (w : world) (sd ed : pystr) (xs ys : list exchange) :
  forall n,
    served w sd ed n (xs ++ ys)
    <-> served w sd ed n xs /\ served w sd ed (n + List.length xs) ys.
Proof.
  induction xs as [|x xs IH]; intros n; cbn.
  - rewrite Nat.add_0_r. tauto.
  - rewrite IH, <- Nat.add_succ_comm. tauto.
Qed.

(** When every request is answered, and every 200 comes with a well-formed
    body whose rows can be encoded, the loop runs to its end: one line printed, one request sent per
    coordinate, and the rows of the coordinates that got a 200. *)
Lemma loop_served (sd ed : pystr) (xs : list exchange) :
  bodies_well_formed xs ->
  forall w,
    served w sd ed (List.length (posted w)) xs ->
    exists w',
      for_each (map ex_entry xs) (process_entry sd ed) w = (Return tt, w')
      /\ extends w w' (map report_of xs) (map (request_of sd ed) xs)
           (flat_map rows_of xs).
Proof.
  induction 1 as [|x xs Hx Hxs IH]; intros w S.
  - exists w. split; [reflexivity|apply extends_refl].
  - destruct S as (F & P & S). cbn [map flat_map]. rewrite for_each_cons.
    assert (exists w1,
               process_entry sd ed (ex_entry x) w = (Return tt, w1)
               /\ extends w w1 [report_of x] [request_of sd ed x] (rows_of x))
      as (w1 & R1 & E1).
    { unfold report_of, rows_of. destruct (succeeded x) eqn:Hs.
      - apply (process_entry_ok _ _ _ _ _ _ F _ _ _ P).
        + now apply Z.eqb_eq.
        + now apply Hx.
        + now apply Hx.
      - apply (process_entry_error_status _ _ _ _ _ _ F _ _ P).
        now apply Z.eqb_neq. }
    rewrite (bind_return _ _ _ _ _ R1).
    destruct (IH w1) as (w' & R & E).
    { apply (served_remote w); [apply E1|].
      rewrite (ext_posted _ _ _ _ _ E1), length_app, Nat.add_1_r. exact S. }
    exists w'. split; [exact R|].
    exact (extends_trans _ _ _ _ _ _ _ _ _ E1 E).
Qed.

(** An exception raised at one coordinate, after the loop got through the
    coordinates before it, leaves the loop there. *)
Lemma loop_aborts (sd ed : pystr) (before after : list entry) (e : entry)
    (w w1 w2 : world) (ex : exn) :
  for_each before (process_entry sd ed) w = (Return tt, w1) ->
  process_entry sd ed e w1 = (Raise ex, w2) ->
  for_each (before ++ e :: after) (process_entry sd ed) w = (Raise ex, w2).
Proof.
  intros R1 R2. rewrite for_each_app, (bind_return _ _ _ _ _ R1).
  rewrite for_each_cons. exact (bind_raise _ _ _ _ _ R2).
Qed.

(** ** The whole run *)

Lemma ask_date_only_talks (prompt : pystr) (typed : list pystr) :
  forall w, only_talks w (snd (ask_date prompt typed w)).
Proof.
  induction typed as [|s rest IH]; intros w; cbn.
  - repeat split.
  - destruct (fullmatch date_pattern s); cbn.
    + repeat split.
    + match goal with |- only_talks _ (snd (ask_date _ _ ?w1)) =>
        specialize (IH w1) end.
      exact IH.
Qed.

Lemma only_talks_trans (w1 w2 w3 : world) :
  only_talks w1 w2 -> only_talks w2 w3 -> only_talks w1 w3.
Proof. unfold only_talks. intuition congruence. Qed.

Lemma import_coordinates_only_talks (w : world) :
  only_talks w (snd (import_coordinates w)).
Proof.
  unfold import_coordinates.
  destruct (match coordinates_dir w with
            | Unlistable e => (Some e, None)
            | Listing files => read_csv_files files None
            end) as [[ex|] [rows|]];
    try destruct ex; cbn; repeat split.
Qed.

Lemma read_inputs_only_talks (w : world) :
  only_talks w (snd (read_inputs w)).
Proof.
  unfold read_inputs, bind.
  pose proof (ask_date_only_talks (lit "Start date (YYYY-MM-DD): ") (stdin w) w) as T1.
  unfold get_start_date_input, get_end_date_input.
  destruct (ask_date _ (stdin w) w) as [[sd|ex] w1]; cbn [snd] in *; [|exact T1].
  pose proof (ask_date_only_talks (lit "End date (YYYY-MM-DD): ") (stdin w1) w1) as T2.
  destruct (ask_date _ (stdin w1) w1) as [[ed|ex] w2]; cbn [snd] in *;
    [|exact (only_talks_trans _ _ _ T1 T2)].
  pose proof (import_coordinates_only_talks w2) as T3.
  destruct (import_coordinates w2) as [[cs|ex] w3]; cbn [snd] in *;
    exact (only_talks_trans _ _ _ T1 (only_talks_trans _ _ _ T2 T3)).
Qed.

(** Once the inputs are read, the run is [store_results] on them. *)
Lemma fetch_after_inputs (w w0 : world) (sd ed : pystr) (cs : list entry) :
  read_inputs w = (Return (sd, ed, cs), w0) ->
  fetch_prism_daily_data w = store_results sd ed cs w0.
Proof.
  unfold read_inputs, fetch_prism_daily_data, bind.
  destruct (get_start_date_input w) as [[sd'|ex] w1]; [|discriminate].
  destruct (get_end_date_input w1) as [[ed'|ex] w2]; [|discriminate].
  destruct (import_coordinates w2) as [[cs'|ex] w3]; [|discriminate].
  cbn. now intros [= -> -> -> ->].
Qed.

Lemma open_append_opens (w : world) :
  fst (results_dir_exists w) = Return true ->
  open_append w = (Return tt, opened w).
Proof.
  unfold open_append, results_dir_exists.
  destruct (results w); [discriminate|reflexivity].
Qed.

Lemma with_open_write_results (sd ed : pystr) (cs : list entry) (b : bool)
    (w : world) :
  fst (results_dir_exists w) = Return true ->
  with_open_append (write_results sd ed cs b) w
  = match for_each cs (process_entry sd ed)
            (snd ((if b then writerow headers else ret tt) (opened w))) with
    | (Return _, w1) => (Return tt, drain (snd (print completion_notice w1)))
    | (Raise ex, w1) => (Raise ex, drain w1)
    end.
Proof.
  intros D. unfold with_open_append. rewrite (open_append_opens w D).
  unfold write_results, bind.
  set (h := (if b then writerow headers else ret tt) (opened w)).
  assert (Hh : fst h = Return tt) by (subst h; destruct b; reflexivity).
  destruct h as [[[]|ex] wh]; [|discriminate]. cbn [snd].
  destruct (for_each cs (process_entry sd ed) wh) as [[[]|ex] w1]; reflexivity.
Qed.

(** Lines 107-147 seen from the start of the loop: the loop runs, then the
    notice is printed if it came to its end, and the file is closed either
    way. *)
Lemma store_results_eq (sd ed : pystr) (cs : list entry) (w : world) :
  store_results sd ed cs w
  = match for_each cs (process_entry sd ed) (loop_start w) with
    | (Return _, w1) => (Return tt, drain (snd (print completion_notice w1)))
    | (Raise ex, w1) => (Raise ex, drain w1)
    end.
Proof.
  unfold store_results, loop_start.
  destruct w as [i o d res rem p af pe].
  destruct res as [|[[|r0 rs]|]];
    match goal with
    | |- _ ?w = _ =>
        first
          [ exact (with_open_write_results sd ed cs true w eq_refl)
          | exact (with_open_write_results sd ed cs false w eq_refl)
          | exact (with_open_write_results sd ed cs true
                     (set_results (ResultsDir None) w) eq_refl) ]
    end.
Qed.

Lemma loop_start_extends (w : world) :
  contents (loop_start w) = artifact_rows w ++ header_part (artifact_rows w)
  /\ (exists more,
         artifact_rows (loop_start w) = artifact_rows w ++ more
         /\ ((forall waiting, autoflush w waiting = false) -> more = []))
  /\ stdin (loop_start w) = stdin w
  /\ stdout (loop_start w) = stdout w
  /\ coordinates_dir (loop_start w) = coordinates_dir w
  /\ remote (loop_start w) = remote w
  /\ posted (loop_start w) = posted w
  /\ autoflush (loop_start w) = autoflush w.
Proof.
  unfold loop_start.
  assert (O : contents (opened w) = artifact_rows w ++ []
              /\ artifact_rows (opened w) = artifact_rows w).
  { split; reflexivity. }
  destruct O as [O1 O2].
  destruct (artifact_rows w) as [|r0 rs] eqn:A; cbn [header_part].
  - pose proof (writerow_extends headers (opened w) eq_refl) as E.
    destruct E as [E1 E2 E3 E4 E5 E6 E7 (more & E8 & N)].
    rewrite app_nil_r in E2, E5.
    rewrite E7, O1, E8, O2. repeat split; try assumption.
    exists more. split; [reflexivity|exact N].
  - cbn [ret snd]. rewrite O1, O2.
    repeat split; exists []; now rewrite app_nil_r.
Qed.

(** Every request answered, every 200 with a well-formed body: the run
    comes to its end. *)
Lemma store_results_served (sd ed : pystr) (xs : list exchange) (w : world) :
  bodies_well_formed xs ->
  served w sd ed (List.length (posted w)) xs ->
  exists w',
    store_results sd ed (map ex_entry xs) w = (Return tt, w')
    /\ artifact_rows w'
       = artifact_rows w ++ header_part (artifact_rows w) ++ flat_map rows_of xs
    /\ pending w' = []
    /\ stdout w' = stdout w ++ map report_of xs ++ [completion_notice]
    /\ posted w' = posted w ++ map (request_of sd ed) xs.
Proof.
  intros B S.
  destruct (loop_start_extends w) as (C & _ & _ & O & _ & R & P & _).
  destruct (loop_served sd ed xs B (loop_start w)) as (w1 & L & E).
  { apply (served_remote w); [exact R|]. now rewrite P. }
  rewrite store_results_eq, L.
  eexists. split; [reflexivity|].
  destruct E as [_ E2 _ _ E5 _ E7 _].
  change (contents w1 = artifact_rows w ++ header_part (artifact_rows w)
                        ++ flat_map rows_of xs
          /\ [] = (@nil row)
          /\ stdout w1 ++ [completion_notice]
             = stdout w ++ map report_of xs ++ [completion_notice]
          /\ posted w1 = posted w ++ map (request_of sd ed) xs).
  rewrite E7, C, E2, O, E5, P, <- !app_assoc. auto.
Qed.

(** The loop gets through the coordinates [before], then one coordinate
    raises: the run ends there with that exception, the file closed. *)
Lemma store_results_aborts (sd ed : pystr) (before : list exchange) (e : entry)
    (after : list entry) (rq : request) (ex : exn) (w : world) :
  bodies_well_formed before ->
  served w sd ed (List.length (posted w)) before ->
  (forall w1,
      remote w1 = remote w ->
      List.length (posted w1) = (List.length (posted w) + List.length before)%nat ->
      exists w2,
        process_entry sd ed e w1 = (Raise ex, w2)
        /\ extends w1 w2 [] [rq] []) ->
  exists w',
    store_results sd ed (map ex_entry before ++ e :: after) w = (Raise ex, w')
    /\ artifact_rows w'
       = artifact_rows w ++ header_part (artifact_rows w)
         ++ flat_map rows_of before
    /\ pending w' = []
    /\ stdout w' = stdout w ++ map report_of before
    /\ posted w' = posted w ++ map (request_of sd ed) before ++ [rq].
Proof.
  intros B S Hraise.
  destruct (loop_start_extends w) as (C & _ & _ & O & _ & R & P & _).
  destruct (loop_served sd ed before B (loop_start w)) as (w1 & L & E).
  { apply (served_remote w); [exact R|]. now rewrite P. }
  destruct (Hraise w1) as (w2 & L2 & E').
  { rewrite (ext_remote _ _ _ _ _ E). exact R. }
  { rewrite (ext_posted _ _ _ _ _ E), P, length_app, length_map. reflexivity. }
  rewrite store_results_eq, (loop_aborts _ _ _ _ _ _ _ _ _ L L2).
  eexists. split; [reflexivity|].
  destruct E as [_ E2 _ _ E5 _ E7 _], E' as [_ F2 _ _ F5 _ F7 _].
  change (contents w2 = artifact_rows w ++ header_part (artifact_rows w)
                        ++ flat_map rows_of before
          /\ [] = (@nil row)
          /\ stdout w2 = stdout w ++ map report_of before
          /\ posted w2 = posted w ++ map (request_of sd ed) before ++ [rq]).
  rewrite F7, F2, F5, E7, C, E2, O, E5, P, !app_nil_r, <- !app_assoc. auto.
Qed.

(** Whatever happens in the loop, the closed file is what was there, then
    the header if the file was missing or empty, then rows of coordinates. *)
Lemma store_results_artifact (sd ed : pystr) (cs : list entry) (w : world) :
  exists rows,
    artifact_rows (snd (store_results sd ed cs w))
    = artifact_rows w ++ header_part (artifact_rows w) ++ rows
    /\ Forall (coordinate_row cs) rows
    /\ pending (snd (store_results sd ed cs w)) = [].
Proof.
  destruct (loop_start_extends w) as (C & _).
  destruct (loop_extends sd ed cs (loop_start w)) as (out & reqs & rows & E & F).
  exists rows. rewrite store_results_eq.
  destruct (for_each cs (process_entry sd ed) (loop_start w)) as [[[]|ex] w1];
    cbn [snd] in *; destruct E as [_ _ _ _ _ _ E7 _];
    (split; [|split; [exact F|reflexivity]]).
  - change (contents w1 = artifact_rows w ++ header_part (artifact_rows w) ++ rows).
    now rewrite E7, C, <- app_assoc.
  - change (contents w1 = artifact_rows w ++ header_part (artifact_rows w) ++ rows).
    now rewrite E7, C, <- app_assoc.
Qed.

(** ** Failure isolation (C1, C6, C10) *)

Lemma inputs_only_talk (w w0 : world) (sd ed : pystr) (cs : list entry) :
  read_inputs w = (Return (sd, ed, cs), w0) -> only_talks w w0.
Proof.
  intros H. pose proof (read_inputs_only_talks w) as T.
  now rewrite H in T.
Qed.

Lemma rows_of_succeeded (xs : list exchange) :
  flat_map rows_of xs
  = flat_map (fun x => rows_for (ex_id x) (ex_data x)) (filter succeeded xs).
Proof.
  induction xs as [|x xs IH]; [reflexivity|].
  cbn [flat_map filter]. unfold rows_of at 1.
  destruct (succeeded x); cbn [flat_map app]; now rewrite IH.
Qed.

Lemma report_is_not_the_notice (x : exchange) :
  report_of x <> completion_notice.
Proof. unfold report_of. destruct (succeeded x); discriminate. Qed.

(** C1, as amended.  Take a run over N coordinate records in which every
    request is answered, K of them with status 200 and a body that is a
    JSON object with a list of rows under [data], rows that can be encoded
    as UTF-8 with the identifier in front, the others with another status.
    The run returns; the output file holds the rows of exactly the K
    coordinates; each of the N-K others got its error report and was
    skipped; the completion notice is the last thing printed. *)
Theorem failing_coordinates_are_skipped (w w0 : world) (sd ed : pystr)
    (xs : list exchange) :
  read_inputs w = (Return (sd, ed, map ex_entry xs), w0) ->
  served w sd ed (List.length (posted w)) xs ->
  bodies_well_formed xs ->
  isolates_failures w w0 sd ed xs.
Proof.
  intros I S B.
  destruct (inputs_only_talk _ _ _ _ _ I) as (_ & Res & Rem & Pos & _ & _).
  destruct (store_results_served sd ed xs w0 B) as (w' & R & A & P & O & Q).
  { rewrite Pos. now apply (served_remote w). }
  exists w'. rewrite (fetch_after_inputs _ _ _ _ _ I).
  unfold artifact_rows in A at 2 3. rewrite Res in A.
  rewrite rows_of_succeeded in A. rewrite Pos in Q. auto.
Qed.

(** C10.  A coordinate gets status 200 with a body that is not JSON, or
    that is JSON without a usable [data]: the exception raised while reading
    the body leaves the loop and ends the run.  Nothing is written or
    requested for the coordinates after it and no completion notice is
    printed: the last lines are those of the coordinates before it.  A
    status other than 200, in contrast, never raises. *)
Theorem unusable_body_aborts_the_run (w w0 : world) (sd ed : pystr)
    (before : list exchange) (x : exchange) (after : list entry) (ex : exn) :
  read_inputs w
  = (Return (sd, ed, map ex_entry before ++ ex_entry x :: after), w0) ->
  served w sd ed (List.length (posted w)) (before ++ [x]) ->
  bodies_well_formed before ->
  succeeded x = true ->
  body_unusable (ex_response x) ex ->
  aborts_at w w0 sd ed before (request_of sd ed x) ex
  /\ Forall (fun line => line <> completion_notice) (map report_of before)
  /\ (forall e id lat lon r w1,
         coordinate_record e id lat lon ->
         remote w1 (List.length (posted w1)) (params_for sd ed lon lat)
         = Responded r ->
         status_code r <> 200%Z ->
         fst (process_entry sd ed e w1) = Return tt).
Proof.
  intros I S B Hx U.
  destruct (inputs_only_talk _ _ _ _ _ I) as (_ & Res & Rem & Pos & _ & _).
  apply served_app in S. destruct S as [S (F & Px & _)].
  split; [|split].
  - destruct (store_results_aborts sd ed before (ex_entry x) after
                (request_of sd ed x) ex w0 B) as (w' & R & A & P & O & Q).
    + rewrite Pos. now apply (served_remote w).
    + intros w1 R1 L1.
      apply (process_entry_body_raises _ _ _ _ _ _ F _ (ex_response x)).
      * rewrite R1, Rem, L1, Pos. exact Px.
      * now apply Z.eqb_eq.
      * exact U.
    + exists w'. rewrite (fetch_after_inputs _ _ _ _ _ I).
      unfold artifact_rows in A at 2 3. rewrite Res in A. rewrite Pos in Q. auto.
  - apply Forall_forall. intros line Hin.
    apply in_map_iff in Hin. destruct Hin as (b & <- & _).
    apply report_is_not_the_notice.
  - intros e id lat lon r w1 F1 P1 Hs.
    destruct (process_entry_error_status _ _ _ _ _ _ F1 _ _ P1 Hs) as (w2 & -> & _).
    reflexivity.
Qed.

(** C6, as amended.  [requests.post] raising - a timeout is the case in
    point - is not caught anywhere: the exception ends the run at that
    coordinate.  No report is printed for it, no request is sent for the
    coordinates after it, no completion notice is printed; the rows of the
    coordinates before it are in the closed file. *)
Theorem timeout_aborts_the_run (w w0 : world) (sd ed : pystr)
    (before : list exchange) (e : entry) (id lat lon : option pystr)
    (after : list entry) (ex : exn) :
  read_inputs w = (Return (sd, ed, map ex_entry before ++ e :: after), w0) ->
  served w sd ed (List.length (posted w)) before ->
  bodies_well_formed before ->
  coordinate_record e id lat lon ->
  remote w (List.length (posted w) + List.length before)
    (params_for sd ed lon lat) = Failed ex ->
  aborts_at w w0 sd ed before (params_for sd ed lon lat) ex
  /\ Forall (fun line => line <> completion_notice) (map report_of before).
Proof.
  intros I S B F T.
  destruct (inputs_only_talk _ _ _ _ _ I) as (_ & Res & Rem & Pos & _ & _).
  split.
  - destruct (store_results_aborts sd ed before e after
                (params_for sd ed lon lat) ex w0 B) as (w' & R & A & P & O & Q).
    + rewrite Pos. now apply (served_remote w).
    + intros w1 R1 L1.
      apply (process_entry_post_raises _ _ _ _ _ _ F).
      rewrite R1, Rem, L1, Pos. exact T.
    + exists w'. rewrite (fetch_after_inputs _ _ _ _ _ I).
      unfold artifact_rows in A at 2 3. rewrite Res in A. rewrite Pos in Q. auto.
  - apply Forall_forall. intros line Hin.
    apply in_map_iff in Hin. destruct Hin as (b & <- & _).
    apply report_is_not_the_notice.
Qed.

(** ** Rows, reports and the header (C5, C7, C2, C9) *)

(** C5, as amended.  For a coordinate whose request gets status 200 and a
    body with the daily rows [data], rows that can be encoded as UTF-8
    with the identifier in front (no string in them holds a lone
    surrogate), the loop appends one row per day, in the order of the
    service, each made of the coordinate's identifier followed by the row
    of the service.  In the end-to-end scenario (A1, two days) the file is
    the header followed by the two rows of A1. *)
Theorem one_row_per_day :
  (forall (sd ed : pystr) (e : entry) (id lat lon : option pystr)
          (w : world) (r : response) (data : list row),
      coordinate_record e id lat lon ->
      remote w (List.length (posted w)) (params_for sd ed lon lat)
      = Responded r ->
      status_code r = 200%Z ->
      daily_series r data ->
      forallb encodable (map (fun day => PStr (str_of_field id) :: day) data)
      = true ->
      exists w',
        process_entry sd ed e w = (Return tt, w')
        /\ contents w'
           = contents w ++ map (fun day => PStr (str_of_field id) :: day) data)
  /\ json a1_response
     = Return (PDict [(lit "data",
                       PList [PList [PStr (lit "2020-01-01"); PInt 32; PInt 20;
                                     PFloat (lit "0.1")];
                              PList [PStr (lit "2020-01-02"); PInt 30; PInt 18;
                                     PFloat (lit "0.0")]])])
  /\ fst (fetch_prism_daily_data scenario) = Return tt
  /\ artifact_rows (snd (fetch_prism_daily_data scenario))
     = [ headers;
         [PStr (lit "A1"); PStr (lit "2020-01-01"); PInt 32; PInt 20;
          PFloat (lit "0.1")];
         [PStr (lit "A1"); PStr (lit "2020-01-02"); PInt 30; PInt 18;
          PFloat (lit "0.0")] ].
Proof.
  split; [|repeat split; vm_compute; reflexivity].
  intros sd ed e id lat lon w r data F P S D H.
  destruct (process_entry_ok _ _ _ _ _ _ F _ _ _ P S D H) as (w' & R & E).
  exists w'. split; [exact R|apply E].
Qed.

Lemma contains_startswith (h n : pystr) :
  startswith h n = true -> contains h n = true.
Proof.
  intros H. destruct h as [|c h].
  - destruct n; [reflexivity|discriminate H].
  - change (contains (c :: h) n) with (startswith (c :: h) n || contains h n).
    now rewrite H.
Qed.

Lemma startswith_app (p s : pystr) : startswith (p ++ s) p = true.
Proof.
  induction p as [|c p IH]; cbn; [reflexivity|].
  now rewrite N.eqb_refl, IH.
Qed.

Lemma contains_app_r (a s n : pystr) :
  contains s n = true -> contains (a ++ s) n = true.
Proof.
  intros H. induction a as [|c a IH]; [exact H|].
  change (contains ((c :: a) ++ s) n)
    with (startswith (c :: a ++ s) n || contains (a ++ s) n).
  rewrite IH. apply orb_true_r.
Qed.

Lemma contains_middle (a b c : pystr) : contains (a ++ b ++ c) b = true.
Proof. apply contains_app_r, contains_startswith, startswith_app. Qed.

(** C7, as amended.  For a coordinate whose request gets a status other
    than 200, the loop prints one line, made of the longitude, the
    latitude, the status and the raw body of the response, and goes on; the
    identifier is not part of the line.  Nothing else records the failure. *)
Theorem error_report_names_the_location (sd ed : pystr) (e : entry)
    (id lat lon : option pystr) (w : world) (r : response) :
  coordinate_record e id lat lon ->
  remote w (List.length (posted w)) (params_for sd ed lon lat) = Responded r ->
  status_code r <> 200%Z ->
  exists w',
    process_entry sd ed e w = (Return tt, w')
    /\ stdout w' = stdout w ++ [error_report lon lat r]
    /\ contents w' = contents w
    /\ error_report lon lat r
       = lit "Error for coordinates " ++ str_of_field lon ++ lit ", "
         ++ str_of_field lat ++ lit ": " ++ str_of_int (status_code r)
         ++ lit ", " ++ text r
    /\ contains (error_report lon lat r) (str_of_field lon) = true
    /\ contains (error_report lon lat r) (str_of_field lat) = true
    /\ contains (error_report lon lat r) (str_of_int (status_code r)) = true
    /\ contains (error_report lon lat r) (text r) = true.
Proof.
  intros F P S.
  destruct (process_entry_error_status _ _ _ _ _ _ F _ _ P S) as (w' & R & E).
  exists w'. split; [exact R|]. split; [apply E|].
  split; [rewrite (ext_contents _ _ _ _ _ E); apply app_nil_r|].
  split; [reflexivity|]. unfold error_report.
  set (rest := lit ": " ++ str_of_int (status_code r) ++ lit ", " ++ text r).
  repeat split.
  - apply contains_middle.
  - replace (lit "Error for coordinates " ++ str_of_field lon ++ lit ", "
             ++ str_of_field lat ++ rest)
      with ((lit "Error for coordinates " ++ str_of_field lon ++ lit ", ")
            ++ str_of_field lat ++ rest)
      by (now rewrite <- !app_assoc).
    apply contains_middle.
  - subst rest.
    replace (lit "Error for coordinates " ++ str_of_field lon ++ lit ", "
             ++ str_of_field lat ++ lit ": " ++ str_of_int (status_code r)
             ++ lit ", " ++ text r)
      with ((lit "Error for coordinates " ++ str_of_field lon ++ lit ", "
             ++ str_of_field lat ++ lit ": ")
            ++ str_of_int (status_code r) ++ lit ", " ++ text r)
      by (now rewrite <- !app_assoc).
    apply contains_middle.
  - subst rest.
    replace (lit "Error for coordinates " ++ str_of_field lon ++ lit ", "
             ++ str_of_field lat ++ lit ": " ++ str_of_int (status_code r)
             ++ lit ", " ++ text r)
      with ((lit "Error for coordinates " ++ str_of_field lon ++ lit ", "
             ++ str_of_field lat ++ lit ": " ++ str_of_int (status_code r)
             ++ lit ", ")
            ++ text r ++ [])
      by (now rewrite <- !app_assoc, app_nil_r).
    apply contains_middle.
Qed.

Lemma coordinate_row_data_row (cs : list entry) (r : row) :
  coordinate_row cs r -> data_row r.
Proof. intros (e & id & cells & _ & _ & ->). now exists id, cells. Qed.

(** A file only this script has written to is empty or made of the header
    followed by rows of line 143. *)
Lemma produced_file (rows : list row) :
  produced rows ->
  rows = [] \/ exists data, rows = headers :: data /\ Forall data_row data.
Proof.
  induction 1 as [|w w0 sd ed cs P IH I]; [now left|right].
  destruct (inputs_only_talk _ _ _ _ _ I) as (_ & Res & _).
  rewrite (fetch_after_inputs _ _ _ _ _ I).
  destruct (store_results_artifact sd ed cs w0) as (rows & A & F & _).
  rewrite A. unfold artifact_rows at 1 2. rewrite Res. fold (artifact_rows w).
  assert (D : Forall data_row rows).
  { eapply Forall_impl; [|exact F]. apply coordinate_row_data_row. }
  destruct IH as [->|(data & -> & Hdata)].
  - exists rows. split; [reflexivity|exact D].
  - exists (data ++ rows). split; [reflexivity|].
    apply Forall_app. split; assumption.
Qed.

(** C2.  Take an output file that only this script has written to, if it
    is there at all, and a run that gets as far as the file.  The run
    writes the header exactly when it finds the file missing or empty, and
    then as the first row; everything else it appends is a row of one of
    its coordinates, whatever their number.  So after the run the first
    row of the file is the header, and every row after the first is a row
    of data written at line 143: no run has written the header a second
    time. *)
Theorem header_is_the_first_row (w w0 : world) (sd ed : pystr)
    (cs : list entry) :
  produced (artifact_rows w) ->
  read_inputs w = (Return (sd, ed, cs), w0) ->
  exists rows data,
    Forall (coordinate_row cs) rows
    /\ artifact_rows (snd (fetch_prism_daily_data w))
       = artifact_rows w ++ header_part (artifact_rows w) ++ rows
    /\ artifact_rows (snd (fetch_prism_daily_data w)) = headers :: data
    /\ hd_error (artifact_rows (snd (fetch_prism_daily_data w)))
       = Some headers
    /\ Forall data_row data.
Proof.
  intros P I.
  destruct (produced_file _ (produced_by_a_run w w0 sd ed cs P I))
    as [E|(data & E & D)].
  - exfalso. revert E.
    destruct (inputs_only_talk _ _ _ _ _ I) as (_ & Res & _).
    rewrite (fetch_after_inputs _ _ _ _ _ I).
    destruct (store_results_artifact sd ed cs w0) as (rows & -> & _).
    destruct (artifact_rows w0); discriminate.
  - destruct (inputs_only_talk _ _ _ _ _ I) as (_ & Res & _).
    pose proof (store_results_artifact sd ed cs w0) as (rows & A & F & _).
    rewrite <- (fetch_after_inputs _ _ _ _ _ I) in A.
    unfold artifact_rows in A at 2 3. rewrite Res in A.
    fold (artifact_rows w) in A.
    exists rows, data. rewrite E at 2 3.
    repeat split; assumption.
Qed.

(** C9, as amended.  The file is opened for appending: what it held stays
    in front.  The loop asks for no flush.  At any moment of the loop the
    rows written so far are in the file as the script sees it, part of them
    on disk and the rest in the buffer; a kill leaves what is on disk, and
    that is the file as it was found for as long as the buffer does not
    drain by itself.  When the [with] block is left, normally or by an
    exception, the file is closed and holds every row written. *)
Theorem rows_are_committed_on_close (w w0 : world) (sd ed : pystr)
    (cs : list entry) (k : nat) :
  read_inputs w = (Return (sd, ed, cs), w0) ->
  exists written later,
    survives_a_kill (in_flight sd ed cs k w0)
    ++ pending (in_flight sd ed cs k w0)
    = artifact_rows w ++ header_part (artifact_rows w) ++ written
    /\ (exists on_disk,
           survives_a_kill (in_flight sd ed cs k w0)
           = artifact_rows w ++ on_disk
           /\ ((forall waiting, autoflush w waiting = false) -> on_disk = []))
    /\ artifact_rows (snd (fetch_prism_daily_data w))
       = artifact_rows w ++ header_part (artifact_rows w) ++ written ++ later
    /\ pending (snd (fetch_prism_daily_data w)) = [].
Proof.
  intros I. unfold survives_a_kill.
  destruct (inputs_only_talk _ _ _ _ _ I) as (_ & Res & _ & _ & Aut & _).
  assert (A0 : artifact_rows w0 = artifact_rows w)
    by (unfold artifact_rows; now rewrite Res).
  rewrite (fetch_after_inputs _ _ _ _ _ I), store_results_eq.
  destruct (loop_start_extends w0)
    as (C & (d0 & D0 & N0) & _ & _ & _ & _ & _ & Aut0).
  unfold in_flight.
  destruct (loop_extends sd ed (firstn k cs) (loop_start w0))
    as (out1 & reqs1 & written & E1 & _).
  destruct (loop_prefix sd ed cs k (loop_start w0))
    as (out2 & reqs2 & later & E2 & _).
  exists written, later.
  destruct E1 as [_ _ _ _ _ _ E17 (d1 & D1 & N1)], E2 as [_ _ _ _ _ _ E27 _].
  rewrite A0 in *.
  fold (contents (snd (for_each (firstn k cs) (process_entry sd ed)
                         (loop_start w0)))).
  split; [|split; [|split]].
  - now rewrite E17, C, <- app_assoc.
  - exists (d0 ++ d1). split; [now rewrite D1, D0, <- app_assoc|].
    intros H. rewrite N0, N1; [reflexivity| |].
    + intros waiting. rewrite Aut0, Aut. apply H.
    + intros waiting. rewrite Aut. apply H.
  - destruct (for_each cs (process_entry sd ed) (loop_start w0)) as [[[]|ex] w1];
      cbn [snd] in *.
    + change (contents w1 = artifact_rows w ++ header_part (artifact_rows w)
                            ++ written ++ later).
      now rewrite E27, E17, C, <- !app_assoc.
    + change (contents w1 = artifact_rows w ++ header_part (artifact_rows w)
                            ++ written ++ later).
      now rewrite E27, E17, C, <- !app_assoc.
  - destruct (for_each cs (process_entry sd ed) (loop_start w0)) as [[[]|ex] w1];
      reflexivity.
Qed.

(** ** The coordinate loader (C3, C8) *)

Lemma read_csv_files_csv_only (files : list (pystr * file_read)) :
  forall bound,
    read_csv_files files bound = read_csv_files (csv_files files) bound.
Proof.
  induction files as [|[name content] files IH]; intros bound;
    [reflexivity|].
  unfold csv_files in *. cbn [filter fst read_csv_files].
  destruct (endswith name (lit ".csv")) eqn:E; [|apply IH].
  cbn [read_csv_files]. rewrite E.
  destruct content; [apply IH|reflexivity].
Qed.

Lemma read_csv_files_all_readable (before : list (pystr * file_read))
    (name : pystr) (rows : list entry) :
  Forall readable before ->
  Forall (fun f => endswith (fst f) (lit ".csv") = true)
    (before ++ [(name, Parsed rows)]) ->
  forall bound,
    read_csv_files (before ++ [(name, Parsed rows)]) bound = (None, Some rows).
Proof.
  induction 1 as [|[n c] before [r Hr] _ IH]; intros E bound.
  - inversion E as [|? ? En _]; subst. cbn in *. now rewrite En.
  - inversion E as [|? ? En E']; subst. cbn in *. subst c.
    rewrite En. now apply IH.
Qed.

(** C3, as amended.  When the files of '.coordinates' whose name ends in
    '.csv' can all be read, the loader returns the rows of the last of them
    in the order of the listing, as they are: in order, duplicates
    included.  The rows of the files before it are dropped.  With a single
    such file this is the ordered union of the rows. *)
Theorem last_csv_file_wins (w : world) (files before : list (pystr * file_read))
    (name : pystr) (rows : list entry) :
  coordinates_dir w = Listing files ->
  csv_files files = before ++ [(name, Parsed rows)] ->
  Forall readable before ->
  import_coordinates w = (Return rows, w)
  /\ (before = [] -> rows = ordered_union files).
Proof.
  intros D C R. split.
  - unfold import_coordinates. rewrite D, read_csv_files_csv_only, C.
    rewrite (read_csv_files_all_readable _ _ _ R); [reflexivity|].
    rewrite <- C. apply Forall_forall. intros f Hf.
    now apply filter_In in Hf.
  - intros ->. unfold ordered_union. rewrite C. cbn. now rewrite app_nil_r.
Qed.

(** C8: what the loader does where the claim expects two kinds of error
    and an empty result.  The variable returned at line 91 is assigned only
    inside the loop, when a file is read.  With '.coordinates' missing or
    unreadable the handler prints its message and the [return] then raises
    [UnboundLocalError]; with a directory that has no file ending in '.csv'
    the same [return] raises [UnboundLocalError] as well: no empty result
    is returned. *)
Theorem loader_returns_an_unbound_variable (w : world) :
  (coordinates_dir w = Unlistable FileNotFoundError ->
   import_coordinates w
   = (Raise UnboundLocalError,
      set_stdout (stdout w ++ [lit "Directory .coordinates not found."]) w))
  /\ (coordinates_dir w = Unlistable PermissionError ->
      import_coordinates w
      = (Raise UnboundLocalError,
         set_stdout
           (stdout w ++ [lit "No permission to read directory .coordinates."])
           w))
  /\ (forall files,
         coordinates_dir w = Listing files ->
         csv_files files = [] ->
         import_coordinates w = (Raise UnboundLocalError, w)).
Proof.
  unfold import_coordinates. repeat split.
  - now intros ->.
  - now intros ->.
  - intros files -> C. now rewrite read_csv_files_csv_only, C.
Qed.

(** ** The claims on concrete runs *)

Ltac well_formed :=
  repeat (constructor;
          [ let H := fresh in
            intros H;
            first [ discriminate H
                  | split; [eexists; split; reflexivity|reflexivity] ]
          | ]);
  try constructor.

(** C4 on a date typed with the digits 0 to 9. *)
Lemma date_validator_accepts_decimal_digit_dates_witness :
  ascii_date_shape (lit "2023-08-03")
  /\ fullmatch date_pattern (lit "2023-08-03") = true.
Proof.
  assert (S : ascii_date_shape (lit "2023-08-03")).
  { exists 50, 48, 50, 51, 48, 56, 48, 51. split; [reflexivity|].
    repeat constructor; discriminate. }
  split; [exact S|].
  exact (proj1 (proj2 date_validator_accepts_decimal_digit_dates) _ S).
Defined.

(** C4 as stated fails: 2023-08-03 typed in Arabic-Indic digits, or in
    fullwidth digits, is not made of digits 0 to 9, and both prompts
    accept it. *)
Lemma other_decimal_digits_are_accepted :
  ~ ascii_date_shape arabic_indic_date
  /\ fullmatch date_pattern arabic_indic_date = true
  /\ fst (get_start_date_input
            (desk [arabic_indic_date] (one_file [a1]) NoResultsDir
               (service (Responded a1_response) (Responded a2_response))))
     = Return arabic_indic_date
  /\ fst (get_end_date_input
            (desk [arabic_indic_date] (one_file [a1]) NoResultsDir
               (service (Responded a1_response) (Responded a2_response))))
     = Return arabic_indic_date
  /\ ~ ascii_date_shape fullwidth_date
  /\ fullmatch date_pattern fullwidth_date = true.
Proof.
  assert (N : forall s c rest,
             s = c :: rest -> ~ is_digit_0_9 c -> ~ ascii_date_shape s).
  { intros s c rest -> D (y1 & y2 & y3 & y4 & m1 & m2 & d1 & d2 & E & F).
    injection E as -> _. inversion F; subst. contradiction. }
  repeat split; try (vm_compute; reflexivity).
  - apply (N _ 0x662 _ eq_refl). unfold is_digit_0_9. lia.
  - apply (N _ 0xFF12 _ eq_refl). unfold is_digit_0_9. lia.
Qed.

(** C1 on a run: A1 gets its rows, A2 gets status 400 and is skipped. *)
Lemma failing_coordinates_are_skipped_witness :
  isolates_failures a2_rejected (snd (read_inputs a2_rejected)) day1 day2
    [exchange_a1 a1_response a1_data; exchange_a2 bad_request []].
Proof.
  apply failing_coordinates_are_skipped.
  - reflexivity.
  - cbn. repeat split.
  - well_formed.
Defined.

(** C1 as stated fails: both requests of this run get status 200, the
    first with an HTML page for a body; [response.json()] raises and the run
    ends there, with no row for either coordinate and no completion
    notice. *)
Lemma status_200_alone_does_not_isolate :
  read_inputs a1_html
  = (Return (day1, day2,
             map ex_entry [exchange_a1 html_page [];
                           exchange_a2 a2_response a2_data]),
     snd (read_inputs a1_html))
  /\ served a1_html day1 day2 0
       [exchange_a1 html_page []; exchange_a2 a2_response a2_data]
  /\ succeeded (exchange_a1 html_page []) = true
  /\ succeeded (exchange_a2 a2_response a2_data) = true
  /\ fst (fetch_prism_daily_data a1_html) = Raise JSONDecodeError
  /\ artifact_rows (snd (fetch_prism_daily_data a1_html)) = [headers]
  /\ stdout (snd (fetch_prism_daily_data a1_html))
     = [lit "Start date (YYYY-MM-DD): "; lit "End date (YYYY-MM-DD): "]
  /\ ~ isolates_failures a1_html (snd (read_inputs a1_html)) day1 day2
         [exchange_a1 html_page []; exchange_a2 a2_response a2_data].
Proof.
  split; [reflexivity|]. split; [cbn; repeat split|].
  do 5 (split; [vm_compute; reflexivity|]).
  intros (w' & R & _). apply (f_equal fst) in R. vm_compute in R.
  discriminate R.
Qed.

(** C10 on a run: A1 gets its rows, then A2 gets status 200 and an object
    without [data]; the [KeyError] ends the run. *)
Lemma unusable_body_aborts_the_run_witness :
  aborts_at a2_error_object (snd (read_inputs a2_error_object)) day1 day2
    [exchange_a1 a1_response a1_data]
    (request_of day1 day2 (exchange_a2 error_object []))
    (KeyError (lit "data")).
Proof.
  apply (unusable_body_aborts_the_run a2_error_object _ day1 day2
           [exchange_a1 a1_response a1_data] (exchange_a2 error_object []) []).
  - reflexivity.
  - cbn. repeat split.
  - well_formed.
  - reflexivity.
  - right. eexists. split; reflexivity.
Defined.

(** C6 on a run: A1 gets its rows, then the request for A2 times out. *)
Lemma timeout_aborts_the_run_witness :
  aborts_at a2_times_out (snd (read_inputs a2_times_out)) day1 day2
    [exchange_a1 a1_response a1_data]
    (params_for day1 day2 (Some (lit "-76.25")) (Some (lit "41.5")))
    Timeout.
Proof.
  apply (timeout_aborts_the_run a2_times_out _ day1 day2
           [exchange_a1 a1_response a1_data] a2 (Some (lit "A2")) _ _ []).
  - reflexivity.
  - cbn. repeat split.
  - well_formed.
  - repeat split.
  - reflexivity.
Defined.

(** C6 as stated fails: the request for A1, the first of two coordinates,
    times out; the run ends with the exception.  Nothing is printed after
    the prompts - no report, no completion notice - and no request is sent
    for A2. *)
Lemma timeout_is_not_skipped :
  remote a1_times_out 0
    (params_for day1 day2 (Some (lit "-75.0")) (Some (lit "40.0")))
  = Failed Timeout
  /\ fst (fetch_prism_daily_data a1_times_out) = Raise Timeout
  /\ stdout (snd (fetch_prism_daily_data a1_times_out))
     = [lit "Start date (YYYY-MM-DD): "; lit "End date (YYYY-MM-DD): "]
  /\ posted (snd (fetch_prism_daily_data a1_times_out))
     = [params_for day1 day2 (Some (lit "-75.0")) (Some (lit "40.0"))]
  /\ artifact_rows (snd (fetch_prism_daily_data a1_times_out)) = [headers].
Proof. repeat split; vm_compute; reflexivity. Qed.

(** C5 on the scenario: the turn of the loop for A1. *)
Lemma one_row_per_day_witness :
  exists w',
    process_entry day1 day2 a1 (loop_start (snd (read_inputs scenario)))
    = (Return tt, w')
    /\ contents w'
       = contents (loop_start (snd (read_inputs scenario)))
         ++ map (fun day => PStr (lit "A1") :: day) a1_data.
Proof.
  apply (proj1 one_row_per_day day1 day2 a1 (Some (lit "A1"))
           (Some (lit "40.0")) (Some (lit "-75.0")) _ a1_response a1_data).
  - repeat split.
  - reflexivity.
  - reflexivity.
  - eexists. split; reflexivity.
  - reflexivity.
Defined.

(** C5 as stated fails: the request for A1 gets status 200 and a body
    whose [data] is one daily row, with the escape \ud800 for a date.  The
    row cannot be encoded: [writerow] raises, no row is appended for the
    day, and the run ends there with the header alone in the file. *)
Lemma a_day_that_cannot_be_encoded_is_not_written :
  coordinate_record a1 (Some (lit "A1")) (Some (lit "40.0"))
    (Some (lit "-75.0"))
  /\ remote (loop_start (snd (read_inputs a1_surrogate)))
       (List.length (posted (loop_start (snd (read_inputs a1_surrogate)))))
       (params_for day1 day2 (Some (lit "-75.0")) (Some (lit "40.0")))
     = Responded surrogate_response
  /\ status_code surrogate_response = 200%Z
  /\ daily_series surrogate_response surrogate_data
  /\ fst (process_entry day1 day2 a1
            (loop_start (snd (read_inputs a1_surrogate))))
     = Raise UnicodeEncodeError
  /\ contents (snd (process_entry day1 day2 a1
                      (loop_start (snd (read_inputs a1_surrogate)))))
     = contents (loop_start (snd (read_inputs a1_surrogate)))
  /\ fst (fetch_prism_daily_data a1_surrogate) = Raise UnicodeEncodeError
  /\ artifact_rows (snd (fetch_prism_daily_data a1_surrogate)) = [headers].
Proof.
  split; [repeat split|]. split; [reflexivity|]. split; [reflexivity|].
  split; [eexists; split; reflexivity|].
  repeat split; vm_compute; reflexivity.
Qed.

(** C7 on a run: the line printed for A2 and status 400. *)
Lemma error_report_names_the_location_witness :
  exists w',
    process_entry day1 day2 a2 a2_rejected = (Return tt, w')
    /\ stdout w'
       = stdout a2_rejected
         ++ [error_report (Some (lit "-76.25")) (Some (lit "41.5")) bad_request]
    /\ contents w' = contents a2_rejected
    /\ error_report (Some (lit "-76.25")) (Some (lit "41.5")) bad_request
       = lit "Error for coordinates " ++ lit "-76.25" ++ lit ", "
         ++ lit "41.5" ++ lit ": " ++ str_of_int 400 ++ lit ", "
         ++ lit "Invalid location"
    /\ contains (error_report (Some (lit "-76.25")) (Some (lit "41.5")) bad_request)
         (lit "-76.25") = true
    /\ contains (error_report (Some (lit "-76.25")) (Some (lit "41.5")) bad_request)
         (lit "41.5") = true
    /\ contains (error_report (Some (lit "-76.25")) (Some (lit "41.5")) bad_request)
         (str_of_int 400) = true
    /\ contains (error_report (Some (lit "-76.25")) (Some (lit "41.5")) bad_request)
         (lit "Invalid location") = true.
Proof.
  apply (error_report_names_the_location day1 day2 a2 (Some (lit "A2"))).
  - repeat split.
  - reflexivity.
  - discriminate.
Defined.

(** C7 as stated fails: the line printed for A2 does not contain its
    identifier, and an entry with another identifier at the same place
    gets the same line. *)
Lemma error_report_omits_the_identifier :
  lookup (lit "id") a2 = Some (Some (lit "A2"))
  /\ stdout (snd (fetch_prism_daily_data a2_rejected))
     = [ lit "Start date (YYYY-MM-DD): "; lit "End date (YYYY-MM-DD): ";
         lit "Fetching data for id A1...";
         lit "Error for coordinates -76.25, 41.5: 400, Invalid location";
         completion_notice ]
  /\ contains (lit "Error for coordinates -76.25, 41.5: 400, Invalid location")
       (lit "A2") = false
  /\ stdout (snd (process_entry day1 day2 (site "B7" "41.5" "-76.25") a2_rejected))
     = stdout (snd (process_entry day1 day2 a2 a2_rejected)).
Proof. repeat split; vm_compute; reflexivity. Qed.

(** The file the scenario leaves is one the script has produced. *)
Lemma scenario_file_is_produced : produced (artifact_rows same_second).
Proof.
  assert (E : artifact_rows (snd (fetch_prism_daily_data scenario))
              = artifact_rows same_second) by (vm_compute; reflexivity).
  rewrite <- E.
  apply (produced_by_a_run scenario (snd (read_inputs scenario)) day1 day2
           [a1]).
  - exact produced_nothing.
  - reflexivity.
Qed.

(** C2 on a run that finds the file the scenario has left. *)
Lemma header_is_the_first_row_witness :
  exists rows data,
    Forall (coordinate_row [a1; a2]) rows
    /\ artifact_rows (snd (fetch_prism_daily_data same_second))
       = artifact_rows same_second ++ header_part (artifact_rows same_second)
         ++ rows
    /\ artifact_rows (snd (fetch_prism_daily_data same_second))
       = headers :: data
    /\ hd_error (artifact_rows (snd (fetch_prism_daily_data same_second)))
       = Some headers
    /\ Forall data_row data.
Proof.
  apply (header_is_the_first_row same_second (snd (read_inputs same_second))
           day1 day2 [a1; a2]).
  - exact scenario_file_is_produced.
  - reflexivity.
Defined.

(** C9 on a run, at the moment A1 is done and A2 is next. *)
Lemma rows_are_committed_on_close_witness :
  exists written later,
    survives_a_kill
      (in_flight day1 day2 [a1; a2] 1 (snd (read_inputs both_served)))
    ++ pending (in_flight day1 day2 [a1; a2] 1 (snd (read_inputs both_served)))
    = artifact_rows both_served ++ header_part (artifact_rows both_served)
      ++ written
    /\ (exists on_disk,
           survives_a_kill
             (in_flight day1 day2 [a1; a2] 1 (snd (read_inputs both_served)))
           = artifact_rows both_served ++ on_disk
           /\ ((forall waiting, autoflush both_served waiting = false) ->
               on_disk = []))
    /\ artifact_rows (snd (fetch_prism_daily_data both_served))
       = artifact_rows both_served ++ header_part (artifact_rows both_served)
         ++ written ++ later
    /\ pending (snd (fetch_prism_daily_data both_served)) = [].
Proof.
  apply (rows_are_committed_on_close both_served _ day1 day2 [a1; a2] 1).
  reflexivity.
Defined.

(** C9 as stated fails: with the default 8 KiB buffer, when A1 is done and
    before A2 is processed, the two rows of A1 (and the header, 85 bytes in
    all) are in the buffer and the file on disk is empty; a kill at that
    moment loses the rows of a completed coordinate. *)
Lemma completed_rows_wait_in_the_buffer :
  fst (for_each [a1] (process_entry day1 day2)
         (loop_start (snd (read_inputs both_served)))) = Return tt
  /\ posted (in_flight day1 day2 [a1; a2] 1 (snd (read_inputs both_served)))
     = [params_for day1 day2 (Some (lit "-75.0")) (Some (lit "40.0"))]
  /\ results (in_flight day1 day2 [a1; a2] 1 (snd (read_inputs both_served)))
     = ResultsDir (Some [])
  /\ survives_a_kill
       (in_flight day1 day2 [a1; a2] 1 (snd (read_inputs both_served)))
     = []
  /\ pending (in_flight day1 day2 [a1; a2] 1 (snd (read_inputs both_served)))
     = headers :: rows_for (Some (lit "A1")) a1_data
  /\ utf8_size
       (flat_map csv_line (headers :: rows_for (Some (lit "A1")) a1_data))
     = 85.
Proof. repeat split; vm_compute; reflexivity. Qed.

(** C3 on a listing with two CSV files. *)
Lemma last_csv_file_wins_witness :
  import_coordinates two_files = (Return [a2], two_files)
  /\ ([(lit "north.csv", Parsed [a1])] = [] ->
      [a2]
      = ordered_union
          [(lit "north.csv", Parsed [a1]); (lit "notes.txt", Parsed []);
           (lit "south.csv", Parsed [a2])]).
Proof.
  apply (last_csv_file_wins two_files _ [(lit "north.csv", Parsed [a1])]
           (lit "south.csv") [a2]).
  - reflexivity.
  - reflexivity.
  - constructor; [|constructor]. now exists [a1].
Defined.

(** C3 as stated fails: with north.csv (A1) listed before south.csv (A2)
    the loader returns the row of A2 alone; the ordered union has both. *)
Lemma earlier_files_are_dropped :
  coordinates_dir two_files
  = Listing [(lit "north.csv", Parsed [a1]); (lit "notes.txt", Parsed []);
             (lit "south.csv", Parsed [a2])]
  /\ fst (import_coordinates two_files) = Return [a2]
  /\ ordered_union
       [(lit "north.csv", Parsed [a1]); (lit "notes.txt", Parsed []);
        (lit "south.csv", Parsed [a2])]
     = [a1; a2]
  /\ fst (import_coordinates two_files) <> Return [a1; a2].
Proof.
  repeat split; try (vm_compute; reflexivity).
  vm_compute. discriminate.
Qed.

(** C8 on the three directories. *)
Lemma loader_returns_an_unbound_variable_witness :
  fst (import_coordinates no_directory) = Raise UnboundLocalError
  /\ fst (import_coordinates locked_directory) = Raise UnboundLocalError
  /\ import_coordinates no_csv_file = (Raise UnboundLocalError, no_csv_file).
Proof.
  split; [|split].
  - now rewrite (proj1 (loader_returns_an_unbound_variable no_directory)).
  - now rewrite (proj1 (proj2 (loader_returns_an_unbound_variable
                                 locked_directory))).
  - apply (proj2 (proj2 (loader_returns_an_unbound_variable no_csv_file))
             [(lit "notes.txt", Parsed [])]); reflexivity.
Defined.

(** * Further properties of the script *)

(** ** The prompts *)

Lemma ask_date_found (prompt : pystr) (rejected : list pystr)
    (accepted : pystr) (rest : list pystr) :
  Forall (fun s => fullmatch date_pattern s = false) rejected ->
  fullmatch date_pattern accepted = true ->
  forall w,
  exists w',
    ask_date prompt (rejected ++ accepted :: rest) w = (Return accepted, w')
    /\ stdin w' = rest
    /\ stdout w' = stdout w ++ reprompts prompt rejected ++ [prompt]
    /\ only_talks w w'.
Proof.
  intros R A. induction R as [|s rejected Hs _ IH]; intros w.
  - cbn [app ask_date]. rewrite A. eexists. split; [reflexivity|].
    repeat split.
  - cbn [app ask_date]. rewrite Hs.
    match goal with |- context [ask_date _ _ ?w1] =>
      destruct (IH w1) as (w' & E & I & O & T) end.
    exists w'. split; [exact E|]. split; [exact I|]. split.
    + rewrite O. cbn [stdout set_stdout set_stdin reprompts flat_map app].
      rewrite <- !app_assoc. reflexivity.
    + destruct T as (T1 & T2 & T3 & T4 & T5 & T6). repeat split; assumption.
Qed.

Lemma ask_date_eof (prompt : pystr) (typed : list pystr) :
  Forall (fun s => fullmatch date_pattern s = false) typed ->
  forall w,
  exists w',
    ask_date prompt typed w = (Raise EOFError, w')
    /\ stdin w' = []
    /\ stdout w' = stdout w ++ reprompts prompt typed ++ [prompt]
    /\ only_talks w w'.
Proof.
  induction 1 as [|s typed Hs _ IH]; intros w.
  - cbn [ask_date]. eexists. split; [reflexivity|]. repeat split.
  - cbn [ask_date]. rewrite Hs.
    match goal with |- context [ask_date _ _ ?w1] =>
      destruct (IH w1) as (w' & E & I & O & T) end.
    exists w'. split; [exact E|]. split; [exact I|]. split.
    + rewrite O. cbn [stdout set_stdout set_stdin reprompts flat_map app].
      rewrite <- !app_assoc. reflexivity.
    + destruct T as (T1 & T2 & T3 & T4 & T5 & T6). repeat split; assumption.
Qed.

Lemma not_shape_no_match (s : pystr) :
  ~ date_shape s -> fullmatch date_pattern s = false.
Proof.
  intros N. destruct (fullmatch date_pattern s) eqn:E; [|reflexivity].
  now apply fullmatch_date_shape in E.
Qed.

Lemma rejected_no_match (typed : list pystr) :
  Forall (fun s => ~ date_shape s) typed ->
  Forall (fun s => fullmatch date_pattern s = false) typed.
Proof. apply Forall_impl. exact not_shape_no_match. Qed.

(** X1.  Each prompt hands back the first typed line that has the shape of
    a date.  For every line it turns down before that it has written its
    prompt and the complaint; the lines typed after the accepted one are
    still to be read. *)
Theorem prompt_returns_the_first_date (w : world) (rejected : list pystr)
    (accepted : pystr) (rest : list pystr) :
  stdin w = rejected ++ accepted :: rest ->
  Forall (fun s => ~ date_shape s) rejected ->
  date_shape accepted ->
  (exists w',
      get_start_date_input w = (Return accepted, w')
      /\ stdin w' = rest
      /\ stdout w' = stdout w ++ reprompts start_prompt rejected ++ [start_prompt]
      /\ only_talks w w')
  /\ (exists w',
         get_end_date_input w = (Return accepted, w')
         /\ stdin w' = rest
         /\ stdout w' = stdout w ++ reprompts end_prompt rejected ++ [end_prompt]
         /\ only_talks w w').
Proof.
  intros I R A. apply rejected_no_match in R.
  apply fullmatch_date_shape in A.
  unfold get_start_date_input, get_end_date_input. rewrite I.
  split; apply ask_date_found; assumption.
Qed.

Lemma first_date_or_none (typed : list pystr) :
  Forall (fun s => fullmatch date_pattern s = false) typed
  \/ exists rejected accepted rest,
       typed = rejected ++ accepted :: rest
       /\ Forall (fun s => fullmatch date_pattern s = false) rejected
       /\ fullmatch date_pattern accepted = true.
Proof.
  induction typed as [|s typed IH]; [now left|].
  destruct (fullmatch date_pattern s) eqn:E.
  - right. exists [], s, typed. repeat split; [constructor|exact E].
  - destruct IH as [IH|(rejected & a & rest & -> & R & A)].
    + left. now constructor.
    + right. exists (s :: rejected), a, rest. repeat split; [|exact A].
      now constructor.
Qed.

Lemma no_well_formed_dates (typed : list pystr) :
  well_formed_dates typed = [] ->
  Forall (fun s => fullmatch date_pattern s = false) typed.
Proof.
  unfold well_formed_dates. induction typed as [|s typed IH]; cbn [filter].
  - constructor.
  - destruct (fullmatch date_pattern s) eqn:E; [discriminate|].
    intros H. constructor; auto.
Qed.

Lemma well_formed_dates_rejected (rejected tail : list pystr) :
  Forall (fun s => fullmatch date_pattern s = false) rejected ->
  well_formed_dates (rejected ++ tail) = well_formed_dates tail.
Proof.
  unfold well_formed_dates. induction 1 as [|s rejected Hs _ IH]; cbn [app filter].
  - reflexivity.
  - now rewrite Hs.
Qed.

(** X2.  When fewer than two of the typed lines have the shape of a date,
    the run ends with [EOFError] at a prompt, having consumed every line.
    No request has been sent and '.results' is as it was. *)
Theorem too_few_dates_end_the_run (w : world) :
  (List.length (well_formed_dates (stdin w)) < 2)%nat ->
  exists w',
    fetch_prism_daily_data w = (Raise EOFError, w')
    /\ stdin w' = []
    /\ only_talks w w'.
Proof.
  intros L. unfold fetch_prism_daily_data.
  destruct (first_date_or_none (stdin w))
    as [N|(rejected & a & rest & I & R & A)].
  - destruct (ask_date_eof start_prompt _ N w) as (w' & E & S & _ & T).
    exists w'.
    rewrite (bind_raise get_start_date_input _ w w' EOFError E). auto.
  - destruct (ask_date_found start_prompt _ _ rest R A w) as (w1 & E & S & _ & T).
    rewrite <- I in E.
    rewrite (bind_return get_start_date_input _ w w1 a E).
    assert (N : Forall (fun s => fullmatch date_pattern s = false) (stdin w1)).
    { rewrite S. apply no_well_formed_dates.
      rewrite I, (well_formed_dates_rejected _ _ R) in L.
      unfold well_formed_dates in *. cbn [filter] in L. rewrite A in L.
      destruct (filter (fullmatch date_pattern) rest); [reflexivity|].
      cbn in L. lia. }
    destruct (ask_date_eof end_prompt _ N w1) as (w' & E2 & S2 & _ & T2).
    exists w'.
    rewrite (bind_raise get_end_date_input _ w1 w' EOFError E2).
    split; [reflexivity|]. split; [exact S2|].
    exact (only_talks_trans _ _ _ T T2).
Qed.

(** X3.  Whenever the inputs cannot be read - a prompt at the end of
    stdin, a loader that raises - the run ends there with that exception:
    no request is sent, '.results' is neither created nor changed. *)
Theorem failed_inputs_end_the_run (w w0 : world) (ex : exn) :
  read_inputs w = (Raise ex, w0) ->
  fetch_prism_daily_data w = (Raise ex, w0)
  /\ results w0 = results w
  /\ posted w0 = posted w
  /\ coordinates_dir w0 = coordinates_dir w.
Proof.
  intros H. pose proof (read_inputs_only_talks w) as T. rewrite H in T.
  destruct T as (T1 & T2 & _ & T4 & _). repeat split; try assumption.
  revert H. unfold read_inputs, fetch_prism_daily_data, bind.
  destruct (get_start_date_input w) as [[sd'|ex1] w1]; [|now intros [= -> ->]].
  destruct (get_end_date_input w1) as [[ed'|ex2] w2]; [|now intros [= -> ->]].
  destruct (import_coordinates w2) as [[cs'|ex3] w3]; [|now intros [= -> ->]].
  discriminate.
Qed.

(** ** One coordinate *)

Lemma params_for_entry (sd ed : pystr) (e : entry) (lon lat : option pystr) :
  lookup (lit "lon") e = Some lon ->
  lookup (lit "lat") e = Some lat ->
  request_for_entry sd ed e (params_for sd ed lon lat).
Proof. intros Hlon Hlat. exists lon, lat. repeat split; assumption. Qed.

Lemma report_line_is_not_the_notice (l : pystr) :
  report_line l -> l <> completion_notice.
Proof. intros [[id ->]|(lon & lat & r & ->)]; discriminate. Qed.

(** What one turn of the loop prints and posts, whatever the entry and the
    answer: a turn that returns has sent one request and printed one line; a
    turn that raises has printed nothing and sent at most one request. *)
Lemma process_entry_step (sd ed : pystr) (e : entry) (w : world) :
  exists out reqs,
    stdout (snd (process_entry sd ed e w)) = stdout w ++ out
    /\ posted (snd (process_entry sd ed e w)) = posted w ++ reqs
    /\ match fst (process_entry sd ed e w) with
       | Return _ =>
           exists rq l,
             reqs = [rq] /\ request_for_entry sd ed e rq
             /\ out = [l] /\ report_line l
       | Raise _ =>
           out = []
           /\ (reqs = [] \/ exists rq, reqs = [rq] /\ request_for_entry sd ed e rq)
       end.
Proof.
  pattern (process_entry sd ed e w).
  match goal with |- ?P _ => set (Q := P) end.
  assert (Hnone : forall ex, Q (Raise ex, w)).
  { intros ex. subst Q. exists [], []. cbn. rewrite !app_nil_r. auto. }
  unfold process_entry.
  unfold bind at 1, lift at 1, getitem at 1.
  destruct (lookup (lit "lat") e) as [lat|] eqn:Hlat; [|apply Hnone].
  unfold bind at 1, lift at 1, getitem at 1.
  destruct (lookup (lit "lon") e) as [lon|] eqn:Hlon; [|apply Hnone].
  unfold bind at 1, lift at 1, getitem at 1.
  destruct (lookup (lit "id") e) as [id|] eqn:Hid; [|apply Hnone].
  clear Hnone.
  pose proof (params_for_entry sd ed e lon lat Hlon Hlat) as Hrq.
  set (rq := params_for sd ed lon lat) in *.
  set (w1 := set_posted (posted w ++ [rq]) w).
  assert (Hposted : forall ex, Q (Raise ex, w1)).
  { intros ex. subst Q. exists [], [rq]. cbn. rewrite app_nil_r.
    repeat split. right. now exists rq. }
  unfold bind at 1, requests_post.
  destruct (remote w (List.length (posted w)) rq) as [r|ex]; [|apply Hposted].
  fold w1.
  destruct (Z.eqb (status_code r) 200).
  - unfold bind at 1, lift at 1.
    destruct (json r) as [v|ex]; [|apply Hposted].
    unfold bind at 1, lift at 1.
    destruct (py_getitem v (lit "data")) as [data|ex]; [|apply Hposted].
    unfold bind at 1, lift at 1.
    destruct (py_iter data) as [items|ex]; [|apply Hposted].
    destruct (write_data_extends id items w1) as (rows & E2 & _).
    unfold bind at 1.
    destruct (write_data id items w1) as [[[]|ex] w2]; cbn [snd fst] in *;
      subst Q.
    + exists [fetching_notice id], [rq]. cbn.
      rewrite (ext_stdout _ _ _ _ _ E2), (ext_posted _ _ _ _ _ E2), !app_nil_r.
      repeat split. exists rq, (fetching_notice id). repeat split; [exact Hrq|].
      left. now exists id.
    + exists [], [rq]. cbn.
      rewrite (ext_stdout _ _ _ _ _ E2), (ext_posted _ _ _ _ _ E2), !app_nil_r.
      repeat split. right. now exists rq.
  - subst Q. exists [error_report lon lat r], [rq]. cbn. repeat split.
    exists rq, (error_report lon lat r). repeat split; [exact Hrq|].
    right. now exists lon, lat, r.
Qed.

(** The loop as a whole: it deals with the coordinates in order up to
    some [k]; it has sent the request of each of these, save perhaps the
    last, and printed one line for each turn that returned. *)
Lemma loop_steps (sd ed : pystr) (cs : list entry) :
  forall w,
  exists out reqs k,
    stdout (snd (for_each cs (process_entry sd ed) w)) = stdout w ++ out
    /\ posted (snd (for_each cs (process_entry sd ed) w)) = posted w ++ reqs
    /\ Forall report_line out
    /\ Forall2 (request_for_entry sd ed) (firstn k cs) reqs
    /\ (List.length out <= k <= List.length cs)%nat
    /\ match fst (for_each cs (process_entry sd ed) w) with
       | Return _ => List.length out = List.length cs /\ k = List.length cs
       | Raise _ => (List.length out < List.length cs)%nat
       end.
Proof.
  induction cs as [|e cs IH]; intros w.
  - exists [], [], 0%nat. cbn. rewrite !app_nil_r. repeat split; auto.
  - rewrite for_each_cons. unfold bind.
    destruct (process_entry_step sd ed e w) as (out1 & reqs1 & O1 & P1 & S1).
    destruct (process_entry sd ed e w) as [[[]|ex] w1]; cbn [fst snd] in *.
    + destruct S1 as (rq & l & -> & Hrq & -> & Hl).
      destruct (IH w1) as (out & reqs & k & O & P & L & R & B & F).
      exists (l :: out), (rq :: reqs), (S k).
      rewrite O, P, O1, P1, <- !app_assoc. cbn [app firstn List.length].
      repeat split; try (constructor; assumption); try lia.
      destruct (fst (for_each cs (process_entry sd ed) w1)); lia.
    + destruct S1 as (-> & [->|(rq & -> & Hrq)]).
      * exists [], [], 0%nat. cbn. repeat split; auto; lia.
      * exists [], [rq], 1%nat. cbn. repeat split; auto; try lia.
Qed.

Lemma store_results_steps (sd ed : pystr) (cs : list entry) (w : world) :
  exists out reqs k,
    stdout (snd (store_results sd ed cs w))
    = stdout w ++ out
      ++ match fst (store_results sd ed cs w) with
         | Return _ => [completion_notice]
         | Raise _ => []
         end
    /\ posted (snd (store_results sd ed cs w)) = posted w ++ reqs
    /\ Forall report_line out
    /\ Forall2 (request_for_entry sd ed) (firstn k cs) reqs
    /\ (List.length out <= k <= List.length cs)%nat
    /\ match fst (store_results sd ed cs w) with
       | Return _ => List.length out = List.length cs /\ k = List.length cs
       | Raise _ => (List.length out < List.length cs)%nat
       end.
Proof.
  destruct (loop_start_extends w) as (_ & _ & _ & O & _ & _ & P & _).
  destruct (loop_steps sd ed cs (loop_start w))
    as (out & reqs & k & O1 & P1 & L & R & B & F).
  exists out, reqs, k. rewrite store_results_eq.
  destruct (for_each cs (process_entry sd ed) (loop_start w)) as [[[]|ex] w1];
    cbn [fst snd] in *.
  - change (stdout w1 ++ [completion_notice]
            = stdout w ++ out ++ [completion_notice]
            /\ posted w1 = posted w ++ reqs
            /\ Forall report_line out
            /\ Forall2 (request_for_entry sd ed) (firstn k cs) reqs
            /\ (List.length out <= k <= List.length cs)%nat
            /\ List.length out = List.length cs /\ k = List.length cs).
    rewrite O1, P1, O, P, <- app_assoc.
    repeat split; try assumption; try apply B; apply F.
  - change (stdout w1 = stdout w ++ out ++ []
            /\ posted w1 = posted w ++ reqs
            /\ Forall report_line out
            /\ Forall2 (request_for_entry sd ed) (firstn k cs) reqs
            /\ (List.length out <= k <= List.length cs)%nat
            /\ (List.length out < List.length cs)%nat).
    rewrite O1, P1, O, P, app_nil_r.
    repeat split; try assumption; apply B.
Qed.

(** X4.  The requests of a run are those of the coordinates in the order
    of the input, one each and none twice, up to the coordinate where the
    run stopped (all of them when the run returns).  Each carries the
    longitude, a comma and the latitude of its entry as location, the two
    dates exactly as typed, grid 21 and the elements maxt,mint,pcpn. *)
Theorem one_request_per_coordinate_in_order (w w0 : world) (sd ed : pystr)
    (cs : list entry) :
  read_inputs w = (Return (sd, ed, cs), w0) ->
  exists k reqs,
    posted (snd (fetch_prism_daily_data w)) = posted w ++ reqs
    /\ Forall2 (request_for_entry sd ed) (firstn k cs) reqs
    /\ (k <= List.length cs)%nat
    /\ (fst (fetch_prism_daily_data w) = Return tt -> k = List.length cs).
Proof.
  intros I.
  destruct (inputs_only_talk _ _ _ _ _ I) as (_ & _ & _ & Pos & _).
  rewrite (fetch_after_inputs _ _ _ _ _ I).
  destruct (store_results_steps sd ed cs w0)
    as (out & reqs & k & _ & P & _ & R & B & F).
  exists k, reqs. rewrite P, Pos. repeat split; [exact R|lia|].
  intros H. rewrite H in F. apply F.
Qed.

(** X5.  The loop prints one line for each coordinate it gets through, a
    notice or an error report.  A run that returns has printed a line for
    every coordinate and then the completion notice, which is the last
    thing printed; a run that ends with an exception has printed fewer
    lines than there are coordinates and no completion notice. *)
Theorem completion_notice_closes_a_run_that_returns (w w0 : world)
    (sd ed : pystr) (cs : list entry) :
  read_inputs w = (Return (sd, ed, cs), w0) ->
  exists out,
    Forall report_line out
    /\ Forall (fun l => l <> completion_notice) out
    /\ match fst (fetch_prism_daily_data w) with
       | Return _ =>
           stdout (snd (fetch_prism_daily_data w))
           = stdout w0 ++ out ++ [completion_notice]
           /\ List.length out = List.length cs
       | Raise _ =>
           stdout (snd (fetch_prism_daily_data w)) = stdout w0 ++ out
           /\ (List.length out < List.length cs)%nat
       end.
Proof.
  intros I. rewrite (fetch_after_inputs _ _ _ _ _ I).
  destruct (store_results_steps sd ed cs w0)
    as (out & reqs & k & O & _ & L & _ & _ & F).
  exists out. split; [exact L|]. split.
  - eapply Forall_impl; [|exact L]. exact report_line_is_not_the_notice.
  - destruct (fst (store_results sd ed cs w0)).
    + split; [exact O|apply F].
    + rewrite app_nil_r in O. split; [exact O|exact F].
Qed.

(** X6.  An entry without a [lat], [lon] or [id] field ends the run with
    [KeyError] before anything is asked of the service, the identifier being
    looked up before the request although the request does not use it.
    When the first entry is such an entry - as with a CSV file whose header
    misses or misspells a column - the file holds what it held and the
    header part, nothing has been printed and no request sent. *)
Theorem missing_column_ends_the_run (w w0 : world) (sd ed : pystr)
    (e : entry) (others : list entry) :
  read_inputs w = (Return (sd, ed, e :: others), w0) ->
  lookup (lit "lat") e = None \/ lookup (lit "lon") e = None
  \/ lookup (lit "id") e = None ->
  exists key w',
    In key [lit "lat"; lit "lon"; lit "id"]
    /\ lookup key e = None
    /\ fetch_prism_daily_data w = (Raise (KeyError key), w')
    /\ posted w' = posted w
    /\ stdout w' = stdout w0
    /\ artifact_rows w' = artifact_rows w ++ header_part (artifact_rows w)
    /\ pending w' = [].
Proof.
  intros I M.
  destruct (inputs_only_talk _ _ _ _ _ I) as (_ & Res & _ & Pos & _).
  assert (A0 : artifact_rows w0 = artifact_rows w)
    by (unfold artifact_rows; now rewrite Res).
  destruct (loop_start_extends w0) as (C & _ & _ & O & _ & _ & P & _).
  assert (K : exists key,
             In key [lit "lat"; lit "lon"; lit "id"]
             /\ lookup key e = None
             /\ process_entry sd ed e (loop_start w0)
                = (Raise (KeyError key), loop_start w0)).
  { unfold process_entry.
    destruct (lookup (lit "lat") e) as [lat|] eqn:Hlat.
    - rewrite (lift_bind _ lat) by (unfold getitem; now rewrite Hlat).
      destruct (lookup (lit "lon") e) as [lon|] eqn:Hlon.
      + rewrite (lift_bind _ lon) by (unfold getitem; now rewrite Hlon).
        destruct (lookup (lit "id") e) as [id|] eqn:Hid.
        * destruct M as [M|[M|M]]; discriminate M.
        * exists (lit "id"). split; [cbn; auto|]. split; [exact Hid|].
          apply lift_bind_raise. unfold getitem. now rewrite Hid.
      + exists (lit "lon"). split; [cbn; auto|]. split; [exact Hlon|].
        apply lift_bind_raise. unfold getitem. now rewrite Hlon.
    - exists (lit "lat"). split; [cbn; auto|]. split; [exact Hlat|].
      apply lift_bind_raise. unfold getitem. now rewrite Hlat. }
  destruct K as (key & Hin & Hnone & R).
  exists key, (drain (loop_start w0)).
  split; [exact Hin|]. split; [exact Hnone|]. split.
  - rewrite (fetch_after_inputs _ _ _ _ _ I), store_results_eq, for_each_cons.
    now rewrite (bind_raise _ _ _ _ _ R).
  - change (posted (loop_start w0) = posted w
            /\ stdout (loop_start w0) = stdout w0
            /\ contents (loop_start w0)
               = artifact_rows w ++ header_part (artifact_rows w)
            /\ [] = (@nil row)).
    rewrite P, O, C, A0, Pos. auto.
Qed.

Lemma write_data_rows_written (id : option pystr) (items : list pyval) :
  forall w,
  exists w',
    write_data id items w = (outcome_of (stopped_by id items), w')
    /\ extends w w' [] [] (rows_written id items).
Proof.
  induction items as [|item items IH]; intros w.
  - exists w. split; [reflexivity|apply extends_refl].
  - destruct item;
      try (exists w; split; [reflexivity|apply extends_refl]).
    cbn [stopped_by rows_written].
    destruct (encodable (PStr (str_of_field id) :: items0)) eqn:H.
    + rewrite write_data_cons_list by exact H.
      destruct (IH (snd (writerow (PStr (str_of_field id) :: items0) w)))
        as (w' & R & E).
      exists w'. split; [exact R|].
      exact (extends_trans _ _ _ _ _ _ _ _ _ (writerow_extends _ w H) E).
    + rewrite write_data_cons_unencodable by exact H.
      exists w. split; [reflexivity|apply extends_refl].
Qed.

(** X7.  With status 200 and a body whose [data] can be iterated, the rows
    are written one by one.  At the first item that is not a list
    [TypeError] leaves the loop, at the first row that cannot be encoded
    [UnicodeEncodeError] does: the rows in front of that item have been
    written, the notice of line 144 is not printed.  When every item is a
    list that can be encoded - none at all included - all are written and
    the notice is printed. *)
Theorem rows_stop_at_the_first_item_that_cannot_be_written (sd ed : pystr)
    (e : entry) (id lat lon : option pystr) (w : world) (r : response)
    (v data : pyval) (items : list pyval) :
  coordinate_record e id lat lon ->
  remote w (List.length (posted w)) (params_for sd ed lon lat) = Responded r ->
  status_code r = 200%Z ->
  json r = Return v ->
  py_getitem v (lit "data") = Return data ->
  py_iter data = Return items ->
  exists w',
    process_entry sd ed e w = (outcome_of (stopped_by id items), w')
    /\ contents w' = contents w ++ rows_written id items
    /\ stdout w'
       = stdout w ++ match stopped_by id items with
                     | None => [fetching_notice id]
                     | Some _ => []
                     end.
Proof.
  intros F P S J D It.
  rewrite (process_entry_posts _ _ _ _ _ _ F).
  rewrite (bind_return _ _ _ _ _ (requests_post_responded _ _ _ P)).
  rewrite S, Z.eqb_refl.
  rewrite (lift_bind _ _ _ _ J), (lift_bind _ _ _ _ D), (lift_bind _ _ _ _ It).
  destruct (write_data_rows_written id items
              (set_posted (posted w ++ [params_for sd ed lon lat]) w))
    as (w2 & R & E).
  pose proof (extends_trans _ _ _ _ _ _ _ _ _
                (posted_extends (params_for sd ed lon lat) w) E) as E2.
  destruct (stopped_by id items) as [ex|]; cbn [outcome_of] in *.
  - rewrite (bind_raise _ _ _ _ _ R). exists w2. split; [reflexivity|].
    split; [rewrite (ext_contents _ _ _ _ _ E2); reflexivity|].
    apply E2.
  - rewrite (bind_return _ _ _ _ _ R).
    exists (snd (print (fetching_notice id) w2)). split; [reflexivity|].
    pose proof (extends_trans _ _ _ _ _ _ _ _ _ E2
                  (print_extends (fetching_notice id) w2)) as E3.
    split; [rewrite (ext_contents _ _ _ _ _ E3); now rewrite !app_nil_r|].
    apply E3.
Qed.

(** ** The loader *)

Lemma pystr_eqb_eq (a b : pystr) : pystr_eqb a b = true <-> a = b.
Proof.
  revert b. induction a as [|x a IH]; intros [|y b]; cbn;
    try (split; [discriminate|discriminate]); [tauto|].
  rewrite andb_true_iff, N.eqb_eq, IH. split.
  - now intros [-> ->].
  - now intros [= -> ->].
Qed.

Lemma endswith_suffix (s suffix : pystr) :
  endswith s suffix = true <-> exists stem, s = stem ++ suffix.
Proof.
  unfold endswith. rewrite andb_true_iff, Nat.leb_le, pystr_eqb_eq. split.
  - intros [_ E].
    remember (List.length s - List.length suffix)%nat as k eqn:K. clear K.
    exists (firstn k s). rewrite <- E. symmetry. apply firstn_skipn.
  - intros [stem ->]. rewrite length_app. split; [lia|].
    replace (List.length stem + List.length suffix - List.length suffix)%nat
      with (List.length stem + 0)%nat by lia.
    rewrite skipn_app, Nat.add_0_r, skipn_all.
    replace (List.length stem - List.length stem)%nat with 0%nat by lia.
    reflexivity.
Qed.

Lemma csv_files_names (files : list (pystr * file_read)) :
  Forall (fun f => endswith (fst f) (lit ".csv") = true) (csv_files files).
Proof. apply Forall_forall. intros f Hf. now apply filter_In in Hf. Qed.

(** X8.  The loader opens the files whose name is some stem followed by
    '.csv', in lower case and at the very end, and no other: files with any
    other name can be added to '.coordinates' or removed from it without
    changing what the loader returns or prints. *)
Theorem loader_reads_only_csv_names (w : world)
    (files : list (pystr * file_read)) :
  coordinates_dir w = Listing files ->
  (forall name content,
      In (name, content) (csv_files files)
      <-> In (name, content) files /\ exists stem, name = stem ++ lit ".csv")
  /\ fst (import_coordinates w)
     = fst (import_coordinates (set_coordinates_dir (Listing (csv_files files)) w))
  /\ stdout (snd (import_coordinates w))
     = stdout (snd (import_coordinates
                      (set_coordinates_dir (Listing (csv_files files)) w))).
Proof.
  intros D. split.
  - intros name content. unfold csv_files. rewrite filter_In. cbn [fst].
    now rewrite endswith_suffix.
  - unfold import_coordinates. rewrite D. cbn [coordinates_dir set_coordinates_dir].
    rewrite (read_csv_files_csv_only (csv_files files)).
    rewrite (read_csv_files_csv_only files).
    assert (I : csv_files (csv_files files) = csv_files files).
    { clear D. unfold csv_files. induction files as [|f files IH]; [reflexivity|].
      cbn [filter]. destruct (endswith (fst f) (lit ".csv")) eqn:E; [|exact IH].
      cbn [filter]. now rewrite E, IH. }
    rewrite I.
    destruct (read_csv_files (csv_files files) None) as [[ex|] [rows|]];
      try destruct ex; split; reflexivity.
Qed.

Lemma read_csv_files_past_readable (earlier : list (pystr * file_read))
    (name : pystr) (rows : list entry) (rest : list (pystr * file_read)) :
  Forall readable earlier ->
  Forall (fun f => endswith (fst f) (lit ".csv") = true)
    (earlier ++ (name, Parsed rows) :: rest) ->
  forall bound,
    read_csv_files (earlier ++ (name, Parsed rows) :: rest) bound
    = read_csv_files rest (Some rows).
Proof.
  induction 1 as [|[n c] earlier [r Hr] _ IH]; intros E bound.
  - inversion E as [|? ? En _]; subst. cbn in *. now rewrite En.
  - inversion E as [|? ? En E']; subst. cbn in *. subst c.
    rewrite En. now apply IH.
Qed.

Lemma read_csv_files_raises (before : list (pystr * file_read))
    (name : pystr) (ex : exn) (after : list (pystr * file_read)) :
  Forall readable before ->
  Forall (fun f => endswith (fst f) (lit ".csv") = true)
    (before ++ (name, Unreadable ex) :: after) ->
  forall bound,
    fst (read_csv_files (before ++ (name, Unreadable ex) :: after) bound)
    = Some ex.
Proof.
  induction 1 as [|[n c] before [r Hr] _ IH]; intros E bound.
  - inversion E as [|? ? En _]; subst. cbn in *. now rewrite En.
  - inversion E as [|? ? En E']; subst. cbn in *. subst c.
    rewrite En. now apply IH.
Qed.

(** X9.  A CSV file that cannot be opened for lack of permission, or that
    has vanished since the listing, stops the scan: the handler prints its
    line (which speaks of the directory) and the loader returns, as its
    result, the rows of the CSV file read just before; the files after the
    one that failed are not read. *)
Theorem unreadable_file_returns_the_previous_rows (w : world)
    (files earlier : list (pystr * file_read)) (previous name : pystr)
    (rows : list entry) (ex : exn) (after : list (pystr * file_read)) :
  coordinates_dir w = Listing files ->
  csv_files files
  = earlier ++ (previous, Parsed rows) :: (name, Unreadable ex) :: after ->
  Forall readable earlier ->
  handled ex = true ->
  import_coordinates w
  = (Return rows, set_stdout (stdout w ++ [handler_message ex]) w).
Proof.
  intros D C R H. unfold import_coordinates.
  rewrite D, read_csv_files_csv_only, C.
  pose proof (csv_files_names files) as N. rewrite C in N.
  rewrite (read_csv_files_past_readable _ _ _ _ R N).
  apply Forall_app in N. destruct N as [_ N].
  inversion N as [|? ? _ N']; subst. inversion N' as [|? ? En _]; subst.
  cbn [fst] in En. cbn [read_csv_files]. rewrite En.
  destruct ex; try discriminate H; reflexivity.
Qed.

(** X10.  Any other exception met while listing '.coordinates' or reading
    one of its CSV files - the path is not a directory, a file is not valid
    UTF-8 - leaves the loader as it is: nothing is printed and the rows read
    from earlier files are not returned. *)
Theorem other_loader_errors_propagate (w : world) (ex : exn) :
  handled ex = false ->
  (coordinates_dir w = Unlistable ex ->
   import_coordinates w = (Raise ex, w))
  /\ (forall files before name after,
         coordinates_dir w = Listing files ->
         csv_files files = before ++ (name, Unreadable ex) :: after ->
         Forall readable before ->
         import_coordinates w = (Raise ex, w)).
Proof.
  intros H. unfold import_coordinates. split.
  - intros ->. destruct ex; try discriminate H; reflexivity.
  - intros files before name after D C R.
    rewrite D, read_csv_files_csv_only, C.
    pose proof (csv_files_names files) as N. rewrite C in N.
    pose proof (read_csv_files_raises _ _ _ _ R N None) as E.
    destruct (read_csv_files (before ++ (name, Unreadable ex) :: after) None)
      as [raised bound].
    cbn in E. subst raised.
    destruct ex; try discriminate H; reflexivity.
Qed.

(** ** The buffer and the file *)

Lemma respects_ret {A : Type} (a : A) : respects (ret a).
Proof. intros w1 w2 R. split; [reflexivity|exact R]. Qed.

Lemma respects_lift {A : Type} (r : outcome A) : respects (lift r).
Proof. intros w1 w2 R. split; [reflexivity|exact R]. Qed.

Lemma respects_bind {A B : Type} (m : M A) (k : A -> M B) :
  respects m -> (forall a, respects (k a)) -> respects (bind m k).
Proof.
  intros Hm Hk w1 w2 R. unfold bind.
  destruct (Hm w1 w2 R) as [F S].
  destruct (m w1) as [[a1|e1] w1'], (m w2) as [[a2|e2] w2'];
    cbn [fst snd] in *; try discriminate F.
  - injection F as ->. now apply Hk.
  - injection F as ->. split; [reflexivity|exact S].
Qed.

Lemma respects_extends (m : M unit) (out : list pystr) (reqs : list request)
    (rows : list row) :
  (forall w, fst (m w) = Return tt /\ extends w (snd (m w)) out reqs rows) ->
  respects m.
Proof.
  intros H w1 w2 (R1 & R2 & R3 & R4 & R5 & R6).
  destruct (H w1) as [F1 [A1 A2 A3 A4 A5 _ A7 _]].
  destruct (H w2) as [F2 [B1 B2 B3 B4 B5 _ B7 _]].
  split; [congruence|]. repeat split; congruence.
Qed.

Lemma respects_print (s : pystr) : respects (print s).
Proof.
  apply (respects_extends _ [s] [] []). intros w.
  split; [reflexivity|apply print_extends].
Qed.

Lemma respects_writerow (r : row) : respects (writerow r).
Proof.
  destruct (encodable r) eqn:H.
  - apply (respects_extends _ [] [] [r]). intros w.
    split; [now rewrite writerow_returns|now apply writerow_extends].
  - intros w1 w2 R. rewrite !writerow_raises by exact H.
    split; [reflexivity|exact R].
Qed.

Lemma respects_requests_post (params : request) : respects (requests_post params).
Proof.
  intros w1 w2 (R1 & R2 & R3 & R4 & R5 & R6). unfold requests_post.
  rewrite R4, R5.
  destruct (remote w2 (List.length (posted w2)) params); cbn [fst snd];
    (split; [reflexivity|]); repeat split; cbn; try assumption;
    try (now rewrite R5).
Qed.

Lemma respects_for_each {A : Type} (xs : list A) (body : A -> M unit) :
  (forall x, respects (body x)) -> respects (for_each xs body).
Proof.
  intros H. induction xs as [|x xs IH]; cbn [for_each].
  - apply respects_ret.
  - apply respects_bind; [apply H|intros _; exact IH].
Qed.

Lemma respects_process_entry (sd ed : pystr) (e : entry) :
  respects (process_entry sd ed e).
Proof.
  unfold process_entry, write_data.
  repeat first
    [ apply respects_lift | apply respects_print | apply respects_writerow
    | apply respects_requests_post
    | apply respects_for_each; intros
    | apply respects_bind; [|intros]
    | match goal with
      | |- respects (if ?b then _ else _) => destruct b
      end ].
Qed.

Lemma ask_date_same (prompt : pystr) (typed : list pystr) :
  forall w1 w2,
    same_outside w1 w2 ->
    fst (ask_date prompt typed w1) = fst (ask_date prompt typed w2)
    /\ same_outside (snd (ask_date prompt typed w1))
         (snd (ask_date prompt typed w2)).
Proof.
  induction typed as [|s typed IH]; intros w1 w2 R; cbn [ask_date].
  - destruct R as (R1 & R2 & R3 & R4 & R5 & R6 & R7).
    split; [reflexivity|]. repeat split; cbn; congruence.
  - destruct (fullmatch date_pattern s).
    + destruct R as (R1 & R2 & R3 & R4 & R5 & R6 & R7).
      split; [reflexivity|]. repeat split; cbn; congruence.
    + apply IH. destruct R as (R1 & R2 & R3 & R4 & R5 & R6 & R7).
      repeat split; cbn; congruence.
Qed.

Lemma import_coordinates_same (w1 w2 : world) :
  same_outside w1 w2 ->
  fst (import_coordinates w1) = fst (import_coordinates w2)
  /\ same_outside (snd (import_coordinates w1)) (snd (import_coordinates w2)).
Proof.
  intros (R1 & R2 & R3 & R4 & R5 & R6 & R7). unfold import_coordinates.
  rewrite R3.
  destruct (match coordinates_dir w2 with
            | Unlistable e => (Some e, None)
            | Listing files => read_csv_files files None
            end) as [[ex|] [rows|]];
    try destruct ex; cbn; (split; [reflexivity|]);
    repeat split; cbn; congruence.
Qed.

Lemma drain_same (w1 w2 : world) :
  same_but_buffer w1 w2 -> same_outside (drain w1) (drain w2).
Proof.
  intros (R1 & R2 & R3 & R4 & R5 & R6).
  repeat split; try assumption.
  change (ResultsDir (Some (contents w1)) = ResultsDir (Some (contents w2))).
  now rewrite R6.
Qed.

Lemma store_results_same (sd ed : pystr) (cs : list entry) (w1 w2 : world) :
  same_outside w1 w2 ->
  fst (store_results sd ed cs w1) = fst (store_results sd ed cs w2)
  /\ same_outside (snd (store_results sd ed cs w1))
       (snd (store_results sd ed cs w2)).
Proof.
  intros (R1 & R2 & R3 & R4 & R5 & R6 & R7).
  assert (A : artifact_rows w1 = artifact_rows w2)
    by (unfold artifact_rows; now rewrite R4).
  assert (S : same_but_buffer (loop_start w1) (loop_start w2)).
  { destruct (loop_start_extends w1) as (C1 & _ & I1 & O1 & D1 & M1 & P1 & _).
    destruct (loop_start_extends w2) as (C2 & _ & I2 & O2 & D2 & M2 & P2 & _).
    repeat split; congruence. }
  destruct (respects_for_each cs _ (respects_process_entry sd ed) _ _ S)
    as [F L].
  rewrite !store_results_eq.
  destruct (for_each cs (process_entry sd ed) (loop_start w1)) as [[[]|e1] v1],
           (for_each cs (process_entry sd ed) (loop_start w2)) as [[[]|e2] v2];
    cbn [fst snd] in *; try discriminate F.
  - split; [reflexivity|]. apply drain_same.
    apply (respects_print completion_notice _ _ L).
  - split; [exact F|]. now apply drain_same.
Qed.

(** X11.  The policy of the buffer decides when rows reach the disk, not
    what a run does: with any other policy the run ends the same way, prints
    the same, sends the same requests and leaves the same '.results'. *)
Theorem buffering_changes_nothing_but_timing (w : world)
    (policy : list row -> bool) :
  fst (fetch_prism_daily_data (set_autoflush policy w))
  = fst (fetch_prism_daily_data w)
  /\ stdout (snd (fetch_prism_daily_data (set_autoflush policy w)))
     = stdout (snd (fetch_prism_daily_data w))
  /\ posted (snd (fetch_prism_daily_data (set_autoflush policy w)))
     = posted (snd (fetch_prism_daily_data w))
  /\ results (snd (fetch_prism_daily_data (set_autoflush policy w)))
     = results (snd (fetch_prism_daily_data w)).
Proof.
  assert (R : same_outside (set_autoflush policy w) w) by (repeat split).
  revert R. generalize (set_autoflush policy w). intros v R.
  assert (G : fst (fetch_prism_daily_data v) = fst (fetch_prism_daily_data w)
              /\ same_outside (snd (fetch_prism_daily_data v))
                   (snd (fetch_prism_daily_data w))).
  { unfold fetch_prism_daily_data, bind, get_start_date_input,
      get_end_date_input.
    assert (S0 : stdin v = stdin w) by apply R.
    destruct (ask_date_same (lit "Start date (YYYY-MM-DD): ") (stdin w) v w R)
      as [F1 R1].
    rewrite S0.
    destruct (ask_date _ (stdin w) v) as [[sd1|e1] v1],
             (ask_date _ (stdin w) w) as [[sd2|e2] w1];
      cbn [fst snd] in *; try discriminate F1;
      [|injection F1 as ->; now split].
    injection F1 as ->.
    assert (S1 : stdin v1 = stdin w1) by apply R1.
    destruct (ask_date_same (lit "End date (YYYY-MM-DD): ") (stdin w1) v1 w1 R1)
      as [F2 R2].
    rewrite S1.
    destruct (ask_date _ (stdin w1) v1) as [[ed1|e1] v2],
             (ask_date _ (stdin w1) w1) as [[ed2|e2] w2];
      cbn [fst snd] in *; try discriminate F2;
      [|injection F2 as ->; now split].
    injection F2 as ->.
    destruct (import_coordinates_same v2 w2 R2) as [F3 R3].
    destruct (import_coordinates v2) as [[cs1|e1] v3],
             (import_coordinates w2) as [[cs2|e2] w3];
      cbn [fst snd] in *; try discriminate F3;
      [|injection F3 as ->; now split].
    injection F3 as ->.
    now apply store_results_same. }
  destruct G as (F & _ & O & _ & Res & _ & P & _). auto.
Qed.

(** X12.  After a run that has read its inputs '.results' exists and holds
    the output file, closed and not empty - at least the header or the rows
    found in it - even when every coordinate failed or the loop was left by
    an exception. *)
Theorem a_run_past_its_inputs_leaves_a_file (w w0 : world) (sd ed : pystr)
    (cs : list entry) :
  read_inputs w = (Return (sd, ed, cs), w0) ->
  exists rows,
    results (snd (fetch_prism_daily_data w)) = ResultsDir (Some rows)
    /\ rows <> []
    /\ pending (snd (fetch_prism_daily_data w)) = [].
Proof.
  intros I. rewrite (fetch_after_inputs _ _ _ _ _ I).
  destruct (store_results_artifact sd ed cs w0) as (rows & A & _ & P).
  exists (artifact_rows (snd (store_results sd ed cs w0))).
  split; [|split; [|exact P]].
  - rewrite store_results_eq.
    destruct (for_each cs (process_entry sd ed) (loop_start w0)) as [[[]|ex] w1];
      reflexivity.
  - rewrite A. destruct (artifact_rows w0); discriminate.
Qed.

(** X13.  Two runs on one file, one after the other: the second starts
    once the first has ended and closed the file, and finds '.results' as
    the first left it (as when it starts later within the same second).
    The first, finding no rows, writes the header and its rows; the second
    finds them, writes no header and puts its rows after those of the
    first.  The file has one header, at the top. *)
Theorem second_run_on_a_file_adds_no_header (w1 v1 w2 v2 : world)
    (sd1 ed1 sd2 ed2 : pystr) (cs1 cs2 : list entry) :
  read_inputs w1 = (Return (sd1, ed1, cs1), v1) ->
  artifact_rows w1 = [] ->
  read_inputs w2 = (Return (sd2, ed2, cs2), v2) ->
  results w2 = results (snd (fetch_prism_daily_data w1)) ->
  exists rows1 rows2,
    artifact_rows (snd (fetch_prism_daily_data w1)) = headers :: rows1
    /\ artifact_rows (snd (fetch_prism_daily_data w2))
       = headers :: rows1 ++ rows2
    /\ Forall (coordinate_row cs1) rows1
    /\ Forall (coordinate_row cs2) rows2.
Proof.
  intros I1 E1 I2 R.
  destruct (inputs_only_talk _ _ _ _ _ I1) as (_ & Res1 & _).
  destruct (inputs_only_talk _ _ _ _ _ I2) as (_ & Res2 & _).
  assert (A1 : artifact_rows v1 = []) by (unfold artifact_rows in *; now rewrite Res1).
  assert (A2 : artifact_rows v2 = artifact_rows (snd (fetch_prism_daily_data w1)))
    by (unfold artifact_rows; now rewrite Res2, R).
  rewrite (fetch_after_inputs _ _ _ _ _ I1) in *.
  rewrite (fetch_after_inputs _ _ _ _ _ I2).
  destruct (store_results_artifact sd1 ed1 cs1 v1) as (rows1 & B1 & F1 & _).
  destruct (store_results_artifact sd2 ed2 cs2 v2) as (rows2 & B2 & F2 & _).
  rewrite A1 in B1. cbn [header_part app] in B1.
  rewrite A2, B1 in B2. cbn [header_part app] in B2.
  exists rows1, rows2. auto.
Qed.

(** ** Bodies and dates *)

Lemma write_data_first_item_no_list (id : option pystr) (item : pyval)
    (items : list pyval) (w : world) :
  is_list item = false ->
  write_data id (item :: items) w = (Raise TypeError, w).
Proof. destruct item; try discriminate; reflexivity. Qed.

(** X14.  With status 200 and a [data] that is not a list, no row is
    written.  The turn raises [TypeError] - at the [for] when [data] is a
    number, a truth value or null, at the first item when it is an object or
    a string - and returns, printing the notice, only when [data] is an
    empty object or an empty string. *)
Theorem data_that_is_no_list_gives_no_row (sd ed : pystr) (e : entry)
    (id lat lon : option pystr) (w : world) (r : response) (v data : pyval) :
  coordinate_record e id lat lon ->
  remote w (List.length (posted w)) (params_for sd ed lon lat) = Responded r ->
  status_code r = 200%Z ->
  json r = Return v ->
  py_getitem v (lit "data") = Return data ->
  is_list data = false ->
  exists w',
    process_entry sd ed e w
    = ((if is_empty_container data then Return tt else Raise TypeError), w')
    /\ contents w' = contents w
    /\ stdout w'
       = stdout w ++ (if is_empty_container data then [fetching_notice id] else []).
Proof.
  intros F P S J D L.
  rewrite (process_entry_posts _ _ _ _ _ _ F).
  rewrite (bind_return _ _ _ _ _ (requests_post_responded _ _ _ P)).
  rewrite S, Z.eqb_refl.
  rewrite (lift_bind _ _ _ _ J), (lift_bind _ _ _ _ D).
  pose proof (posted_extends (params_for sd ed lon lat) w) as E1.
  set (w1 := set_posted _ w) in *.
  assert (Hraise : exists w',
             (Raise TypeError, w1) = (@Raise unit TypeError, w')
             /\ contents w' = contents w /\ stdout w' = stdout w ++ []).
  { exists w1. split; [reflexivity|].
    rewrite (ext_contents _ _ _ _ _ E1), (ext_stdout _ _ _ _ _ E1).
    now rewrite !app_nil_r. }
  assert (Hreturn : exists w',
             (write_data id [] ;; print (fetching_notice id)) w1
             = (Return tt, w')
             /\ contents w' = contents w
             /\ stdout w' = stdout w ++ [fetching_notice id]).
  { exists (snd (print (fetching_notice id) w1)). split; [reflexivity|].
    pose proof (extends_trans _ _ _ _ _ _ _ _ _ E1
                  (print_extends (fetching_notice id) w1)) as E2.
    rewrite (ext_contents _ _ _ _ _ E2), (ext_stdout _ _ _ _ _ E2).
    now rewrite app_nil_r. }
  destruct data as [|b|z|f|s|items|items]; try discriminate L;
    try (rewrite (lift_bind_raise _ TypeError) by reflexivity;
         cbn [is_empty_container]; exact Hraise).
  - rewrite (lift_bind _ (map (fun c => PStr [c]) s)) by reflexivity.
    destruct s as [|c s]; [exact Hreturn|]. cbn [map is_empty_container].
    rewrite (bind_raise _ _ _ _ _
               (write_data_first_item_no_list id (PStr [c]) _ w1 eq_refl)).
    exact Hraise.
  - rewrite (lift_bind _ (map (fun kv => PStr (fst kv)) items)) by reflexivity.
    destruct items as [|kv items]; [exact Hreturn|]. cbn [map is_empty_container].
    rewrite (bind_raise _ _ _ _ _
               (write_data_first_item_no_list id (PStr (fst kv)) _ w1 eq_refl)).
    exact Hraise.
Qed.

(** X15.  The two dates are accepted one after the other and never
    compared: the first well-formed line is the start date and the next
    well-formed line the end date, whatever they are, an end before the
    start included.  The loader then runs with the rest of the typed lines
    unread. *)
Theorem dates_are_taken_as_typed (w : world) (slips1 slips2 : list pystr)
    (first second : pystr) (rest : list pystr) :
  stdin w = slips1 ++ first :: slips2 ++ second :: rest ->
  Forall (fun s => ~ date_shape s) slips1 ->
  date_shape first ->
  Forall (fun s => ~ date_shape s) slips2 ->
  date_shape second ->
  exists w2,
    read_inputs w
    = (coordinates <- import_coordinates ;; ret (first, second, coordinates)) w2
    /\ stdin w2 = rest
    /\ stdout w2
       = stdout w ++ reprompts start_prompt slips1 ++ [start_prompt]
         ++ reprompts end_prompt slips2 ++ [end_prompt]
    /\ only_talks w w2.
Proof.
  intros I R1 A1 R2 A2.
  apply rejected_no_match in R1, R2. apply fullmatch_date_shape in A1, A2.
  destruct (ask_date_found start_prompt _ _ (slips2 ++ second :: rest) R1 A1 w)
    as (w1 & E1 & S1 & O1 & T1).
  rewrite <- I in E1.
  destruct (ask_date_found end_prompt _ _ rest R2 A2 w1)
    as (w2 & E2 & S2 & O2 & T2).
  rewrite <- S1 in E2.
  exists w2. unfold read_inputs.
  rewrite (bind_return get_start_date_input _ w w1 first E1).
  rewrite (bind_return get_end_date_input _ w1 w2 second E2).
  split; [reflexivity|]. split; [exact S2|]. split.
  - rewrite O2, O1, <- !app_assoc. reflexivity.
  - exact (only_talks_trans _ _ _ T1 T2).
Qed.

(** ** The further properties on concrete runs *)

Ltac shape_of_date :=
  match goal with
  | |- date_shape _ => apply fullmatch_date_shape; vm_compute; reflexivity
  | |- ~ date_shape _ =>
      let H := fresh in
      intros H; apply fullmatch_date_shape in H; vm_compute in H; discriminate H
  end.

(** X1 on a run: 08-03-2023 is turned down, 2023-08-03 accepted. *)
Lemma prompt_returns_the_first_date_witness :
  exists w',
    get_start_date_input retyped = (Return (lit "2023-08-03"), w')
    /\ stdin w' = [lit "2023-08-10"]
    /\ stdout w'
       = stdout retyped ++ reprompts start_prompt [lit "08-03-2023"]
         ++ [start_prompt]
    /\ only_talks retyped w'.
Proof.
  refine (proj1 (prompt_returns_the_first_date retyped [lit "08-03-2023"]
                   (lit "2023-08-03") [lit "2023-08-10"] eq_refl _ _)).
  - constructor; [shape_of_date|constructor].
  - shape_of_date.
Defined.

(** X2 on a run: a date, then a word, then the end of stdin. *)
Lemma too_few_dates_end_the_run_witness :
  exists w',
    fetch_prism_daily_data one_date_typed = (Raise EOFError, w')
    /\ stdin w' = []
    /\ only_talks one_date_typed w'.
Proof.
  apply too_few_dates_end_the_run. vm_compute. lia.
Defined.

(** X3 on a run: '.coordinates' without a CSV file. *)
Lemma failed_inputs_end_the_run_witness :
  fetch_prism_daily_data no_csv_file
  = (Raise UnboundLocalError, snd (read_inputs no_csv_file))
  /\ results (snd (read_inputs no_csv_file)) = results no_csv_file
  /\ posted (snd (read_inputs no_csv_file)) = posted no_csv_file
  /\ coordinates_dir (snd (read_inputs no_csv_file))
     = coordinates_dir no_csv_file.
Proof. apply failed_inputs_end_the_run. reflexivity. Defined.

(** X4 on a run that stops at its second coordinate. *)
Lemma one_request_per_coordinate_in_order_witness :
  exists k reqs,
    posted (snd (fetch_prism_daily_data a2_times_out))
    = posted a2_times_out ++ reqs
    /\ Forall2 (request_for_entry day1 day2) (firstn k [a1; a2]) reqs
    /\ (k <= List.length [a1; a2])%nat
    /\ (fst (fetch_prism_daily_data a2_times_out) = Return tt ->
        k = List.length [a1; a2]).
Proof.
  apply (one_request_per_coordinate_in_order a2_times_out
           (snd (read_inputs a2_times_out))).
  reflexivity.
Defined.

(** X5 on a run that returns. *)
Lemma completion_notice_closes_a_run_that_returns_witness :
  exists out,
    Forall report_line out
    /\ Forall (fun l => l <> completion_notice) out
    /\ stdout (snd (fetch_prism_daily_data a2_rejected))
       = stdout (snd (read_inputs a2_rejected)) ++ out ++ [completion_notice]
    /\ List.length out = List.length [a1; a2].
Proof.
  apply (completion_notice_closes_a_run_that_returns a2_rejected
           (snd (read_inputs a2_rejected)) day1 day2 [a1; a2]).
  reflexivity.
Defined.

(** X6 on a run: the column of the identifiers is headed [ID]. *)
Lemma missing_column_ends_the_run_witness :
  exists key w',
    In key [lit "lat"; lit "lon"; lit "id"]
    /\ lookup key id_misspelt = None
    /\ fetch_prism_daily_data header_misspelt = (Raise (KeyError key), w')
    /\ posted w' = posted header_misspelt
    /\ stdout w' = stdout (snd (read_inputs header_misspelt))
    /\ artifact_rows w'
       = artifact_rows header_misspelt
         ++ header_part (artifact_rows header_misspelt)
    /\ pending w' = [].
Proof.
  apply (missing_column_ends_the_run header_misspelt _ day1 day2 id_misspelt
           [id_misspelt]).
  - reflexivity.
  - right. right. reflexivity.
Defined.

(** X7 on a body with a string between two rows. *)
Lemma rows_stop_at_the_first_item_that_cannot_be_written_witness :
  exists w',
    process_entry day1 day2 a1 a1_ragged = (Raise TypeError, w')
    /\ contents w'
       = contents a1_ragged
         ++ [[PStr (lit "A1"); PStr (lit "2020-01-01"); PInt 32; PInt 20;
              PFloat (lit "0.1")]]
    /\ stdout w' = stdout a1_ragged ++ [].
Proof.
  apply (rows_stop_at_the_first_item_that_cannot_be_written day1 day2 a1
           (Some (lit "A1")) (Some (lit "40.0")) (Some (lit "-75.0")) a1_ragged
           ragged_response (PDict [(lit "data", PList ragged_items)])
           (PList ragged_items) ragged_items).
  - repeat split.
  - reflexivity.
  - reflexivity.
  - reflexivity.
  - reflexivity.
  - reflexivity.
Defined.

(** X8 on a listing with a text file between two CSV files. *)
Lemma loader_reads_only_csv_names_witness :
  fst (import_coordinates two_files)
  = fst (import_coordinates
           (set_coordinates_dir
              (Listing [(lit "north.csv", Parsed [a1]);
                        (lit "south.csv", Parsed [a2])])
              two_files)).
Proof.
  apply (proj1 (proj2 (loader_reads_only_csv_names two_files
                         [(lit "north.csv", Parsed [a1]);
                          (lit "notes.txt", Parsed []);
                          (lit "south.csv", Parsed [a2])]
                         eq_refl))).
Defined.

(** X9 on a listing whose second CSV file cannot be opened. *)
Lemma unreadable_file_returns_the_previous_rows_witness :
  import_coordinates locked_file
  = (Return [a1],
     set_stdout
       (stdout locked_file
        ++ [lit "No permission to read directory .coordinates."])
       locked_file).
Proof.
  apply (unreadable_file_returns_the_previous_rows locked_file
           [(lit "north.csv", Parsed [a1]);
            (lit "south.csv", Unreadable PermissionError)]
           [] (lit "north.csv") (lit "south.csv") [a1] PermissionError []).
  - reflexivity.
  - reflexivity.
  - constructor.
  - reflexivity.
Defined.

(** X10 on a '.coordinates' that is a plain file. *)
Lemma other_loader_errors_propagate_witness :
  import_coordinates not_a_directory
  = (Raise (OtherError (lit "NotADirectoryError")), not_a_directory).
Proof.
  apply (proj1 (other_loader_errors_propagate not_a_directory
                  (OtherError (lit "NotADirectoryError")) eq_refl)).
  reflexivity.
Defined.

(** X12 on a run whose first request times out. *)
Lemma a_run_past_its_inputs_leaves_a_file_witness :
  exists rows,
    results (snd (fetch_prism_daily_data a1_times_out)) = ResultsDir (Some rows)
    /\ rows <> []
    /\ pending (snd (fetch_prism_daily_data a1_times_out)) = [].
Proof.
  apply (a_run_past_its_inputs_leaves_a_file a1_times_out
           (snd (read_inputs a1_times_out)) day1 day2 [a1; a2]).
  reflexivity.
Defined.

(** X13 on the scenario followed by a run over A1 and A2. *)
Lemma second_run_on_a_file_adds_no_header_witness :
  exists rows1 rows2,
    artifact_rows (snd (fetch_prism_daily_data scenario)) = headers :: rows1
    /\ artifact_rows (snd (fetch_prism_daily_data same_second))
       = headers :: rows1 ++ rows2
    /\ Forall (coordinate_row [a1]) rows1
    /\ Forall (coordinate_row [a1; a2]) rows2.
Proof.
  apply (second_run_on_a_file_adds_no_header scenario
           (snd (read_inputs scenario)) same_second
           (snd (read_inputs same_second)) day1 day2 day1 day2).
  - reflexivity.
  - reflexivity.
  - reflexivity.
  - vm_compute. reflexivity.
Defined.

(** X14 on a body whose [data] is an object keyed by date. *)
Lemma data_that_is_no_list_gives_no_row_witness :
  exists w',
    process_entry day1 day2 a1 a1_object = (Raise TypeError, w')
    /\ contents w' = contents a1_object
    /\ stdout w' = stdout a1_object ++ [].
Proof.
  apply (data_that_is_no_list_gives_no_row day1 day2 a1
           (Some (lit "A1")) (Some (lit "40.0")) (Some (lit "-75.0")) a1_object
           object_response
           (PDict [(lit "data",
                    PDict [(lit "2020-01-01",
                            PList [PInt 32; PInt 20; PFloat (lit "0.1")])])])
           (PDict [(lit "2020-01-01",
                    PList [PInt 32; PInt 20; PFloat (lit "0.1")])])).
  - repeat split.
  - reflexivity.
  - reflexivity.
  - reflexivity.
  - reflexivity.
  - reflexivity.
Defined.

(** X15 on a run: 2020-12-31 becomes the start and 2020-01-01 the end. *)
Lemma dates_are_taken_as_typed_witness :
  exists w2,
    read_inputs end_before_start
    = (coordinates <- import_coordinates ;;
       ret (lit "2020-12-31", lit "2020-01-01", coordinates)) w2
    /\ stdin w2 = [lit "left over"]
    /\ stdout w2
       = stdout end_before_start ++ reprompts start_prompt []
         ++ [start_prompt] ++ reprompts end_prompt [lit "1 Jan"]
         ++ [end_prompt]
    /\ only_talks end_before_start w2.
Proof.
  apply (dates_are_taken_as_typed end_before_start [] [lit "1 Jan"]
           (lit "2020-12-31") (lit "2020-01-01") [lit "left over"]).
  - reflexivity.
  - constructor.
  - shape_of_date.
  - constructor; [shape_of_date|constructor].
  - shape_of_date.
Defined.
